(** * Published storage on an OpenStack Swift container

    A shallow embedding of [swift.PublishedStorage] (package [swift] of
    the repository) and of the part of its environment that its methods
    talk to: the path functions of Go's [path/filepath], the formatting
    of errors, the local file system that [os.Open] reads and the
    object store behind [github.com/ncw/swift].

    Every method of [PublishedStorage] is a computation in a small state
    monad over the remote store.  A request to the store may be hit by a
    transport fault; the schedule of faults is part of the state, and so
    is a log of the requests issued, which is what lets statements speak
    about what a method attempted. *)

From Stdlib Require Import Ascii String List.
From stdpp Require Import base option list strings gmap sorting.

Open Scope string_scope.

(** ** Strings and paths *)

Module strings.

(** The double quote character. *)
Definition dquote : ascii := ascii_of_nat 34.

(** [strings.Replace(s, old, "", -1)] for a one-character [old]:
    every occurrence of the character is dropped. *)
Fixpoint Remove (old : ascii) (s : string) : string :=
  match s with
  | EmptyString => EmptyString
  | String c r => if Ascii.eqb c old then Remove old r else String c (Remove old r)
  end.

(** [strings.Split(s, sep)] for a one-character separator. *)
Fixpoint Split (sep : ascii) (s : string) : list string :=
  match s with
  | EmptyString => [EmptyString]
  | String c r =>
      if Ascii.eqb c sep then EmptyString :: Split sep r
      else match Split sep r with
           | [] => [String c EmptyString]
           | w :: ws => String c w :: ws
           end
  end.

(** [strings.Join(elems, sep)]. *)
Definition Join (elems : list string) (sep : string) : string :=
  String.concat sep elems.

(** [strings.HasPrefix] is [String.prefix]; [strings.Contains]: *)
Fixpoint Contains (s substr : string) : bool :=
  String.prefix substr s ||
  match s with
  | EmptyString => false
  | String _ r => Contains r substr
  end.

End strings.

Module filepath.

Definition Separator : ascii := "/"%char.

(** One step of the lexical rewriting of [Clean]: [out] holds the
    elements kept so far, innermost first. *)
Definition clean_step (rooted : bool) (out : list string) (elem : string)
  : list string :=
  if String.eqb elem "" then out            (* empty element: a run of slashes *)
  else if String.eqb elem "." then out      (* . element *)
  else if String.eqb elem ".." then
    match out with
    | top :: rest =>
        if String.eqb top ".." then elem :: out   (* cannot backtrack *)
        else rest                                  (* drop the element before .. *)
    | [] => if rooted then [] else [elem]          (* /.. is / ; a leading .. stays *)
    end
  else elem :: out.

(** [filepath.Clean]: the shortest path equivalent to [path] by purely
    lexical processing (slashes collapsed, [.] dropped, inner [..]
    resolved, [/..] at the root replaced by [/]). *)
Definition Clean (path : string) : string :=
  if String.eqb path "" then "."
  else
    let rooted := String.prefix "/" path in
    let kept := fold_left (clean_step rooted) (strings.Split Separator path) [] in
    let body := strings.Join (rev kept) "/" in
    if rooted then "/" ++ body
    else if String.eqb body "" then "." else body.

(** [filepath.Join] of two elements: empty elements are ignored, the
    result is cleaned, and it is empty when every element is. *)
Definition Join (a b : string) : string :=
  match List.filter (fun e => negb (String.eqb e "")) [a; b] with
  | [] => ""
  | elems => Clean (strings.Join elems "/")
  end.

(** The elements of [path] with the empty ones at the end, which
    trailing separators produce, removed. *)
Fixpoint drop_trailing_empty (elems : list string) : list string :=
  match elems with
  | [] => []
  | e :: r =>
      match drop_trailing_empty r with
      | [] => if String.eqb e "" then [] else [e]
      | r' => e :: r'
      end
  end.

(** [filepath.Base]: the last element of [path], after trailing
    slashes are removed; [.] for the empty path and [/] for a path
    made of slashes only. *)
Definition Base (path : string) : string :=
  if String.eqb path "" then "."
  else
    match drop_trailing_empty (strings.Split Separator path) with
    | [] => "/"
    | elems => List.last elems "/"
    end.

End filepath.


(** ** The Swift client library

    [github.com/ncw/swift] is not part of the repository.  Its
    operations are modelled from its documentation, over an explicit
    remote store: containers of named objects, each object with the body
    last uploaded and the digest ([Etag]) the store reports for it. *)

Module swift.

(** The sentinel [*swift.Error] values that the library returns. *)
Inductive Error :=
  | BadRequest
  | AuthorizationFailed
  | ContainerNotFound
  | ObjectNotFound
  | TimeoutError
  | Forbidden.

#[global] Instance Error_eq_dec : EqDecision Error.
Proof. solve_decision. Defined.

(** The [Text] of each sentinel, which its [Error()] method returns. *)
Definition Text (e : Error) : string :=
  match e with
  | BadRequest => "Bad Request"
  | AuthorizationFailed => "Authorization Failed"
  | ContainerNotFound => "Container Not Found"
  | ObjectNotFound => "Object Not Found"
  | TimeoutError => "Timeout when reading or writing data"
  | Forbidden => "Operation forbidden"
  end.

(** [swift.Connection]: the credentials the storage is created with. *)
Record Connection := {
  UserName : string;
  ApiKey : string;
  AuthUrl : string
}.

(** [swift.Object]: what the store reports about an object. *)
Record Object := {
  Name : string;
  Bytes : nat;
  Hash : string
}.

(** An object as the store keeps it. *)
Record Stored := {
  etag : string;
  body : string
}.

(** The requests that the operations used by the storage issue. *)
Inductive Request :=
  | PUT (container name : string)
  | HEAD (container name : string)
  | DELETE (container name : string)
  | COPY (srcContainer srcName dstContainer dstName : string)
  | LIST (container : string).

(** The remote side: the containers of the account, the transport
    faults still to come (the n-th entry decides the n-th request from
    now; [None] and the end of the list let the request through), and
    the requests issued so far, oldest first. *)
Record Remote := {
  containers : gmap string (gmap string Stored);
  faults : list (option Error);
  log : list Request
}.

Definition set_containers (cs : gmap string (gmap string Stored)) (s : Remote)
  : Remote :=
  {| containers := cs; faults := faults s; log := log s |}.

(** Computations that talk to the store. *)
Definition M (A : Type) : Type := Remote -> A * Remote.

Definition ret {A} (a : A) : M A := fun s => (a, s).

Definition bind {A B} (m : M A) (k : A -> M B) : M B :=
  fun s => let '(a, s') := m s in k a s'.

(** The fault, if any, that the next request runs into. *)
Definition next_fault (s : Remote) : option Error :=
  match faults s with
  | f :: _ => f
  | [] => None
  end.

(** The remote side once a request has been sent: the request is
    logged and has used up one entry of the fault schedule. *)
Definition sent (r : Request) (s : Remote) : Remote :=
  {| containers := containers s; faults := tail (faults s); log := log s ++ [r] |}.

(** One request on the wire. *)
Definition issue (r : Request) : M (option Error) :=
  fun s => (next_fault s, sent r s).

(** No transport fault is scheduled for the next [n] requests. *)
Definition clear (n : nat) (s : Remote) : Prop :=
  Forall (fun f => f = None) (take n (faults s)).

Definition stored (container name : string) (s : Remote) : option Stored :=
  containers s !! container ≫= fun objs => objs !! name.

Notation "x <- m ;; k" := (bind m (fun x => k))
  (at level 100, m at next level, right associativity, only parsing).

(** [Connection.Object]: the information about one object;
    [ObjectNotFound] when there is none under that name. *)
Definition Object_ (container objectName : string) : M (Error + Object) :=
  f <- issue (HEAD container objectName) ;;
  match f with
  | Some e => ret (inl e)
  | None =>
      fun s =>
        match stored container objectName s with
        | None => (inl ObjectNotFound, s)
        | Some o =>
            (inr {| Name := objectName; Bytes := String.length (body o); Hash := etag o |}, s)
        end
  end.

(** [Connection.ObjectDelete]: deletes the object; [ObjectNotFound] when
    the object is not found. *)
Definition ObjectDelete (container objectName : string) : M (option Error) :=
  f <- issue (DELETE container objectName) ;;
  match f with
  | Some e => ret (Some e)
  | None =>
      fun s =>
        match containers s !! container with
        | None => (Some ObjectNotFound, s)
        | Some objs =>
            match objs !! objectName with
            | None => (Some ObjectNotFound, s)
            | Some _ =>
                (None, set_containers (<[container := delete objectName objs]> (containers s)) s)
            end
        end
  end.

(** [Connection.ObjectCopy]: a server side copy; the source object and
    the destination container must exist. *)
Definition ObjectCopy (srcContainer srcObjectName dstContainer dstObjectName : string)
  : M (option Error) :=
  f <- issue (COPY srcContainer srcObjectName dstContainer dstObjectName) ;;
  match f with
  | Some e => ret (Some e)
  | None =>
      fun s =>
        match stored srcContainer srcObjectName s, containers s !! dstContainer with
        | Some o, Some objs =>
            (None, set_containers (<[dstContainer := <[dstObjectName := o]> objs]> (containers s)) s)
        | _, _ => (Some ObjectNotFound, s)
        end
  end.

(** [Connection.ObjectMove]: "a convenience method which calls
    ObjectCopy then ObjectDelete". *)
Definition ObjectMove (srcContainer srcObjectName dstContainer dstObjectName : string)
  : M (option Error) :=
  err <- ObjectCopy srcContainer srcObjectName dstContainer dstObjectName ;;
  match err with
  | Some e => ret (Some e)
  | None => ObjectDelete srcContainer srcObjectName
  end.

(** The listing of one container, in the order of the object names. *)
Definition listing (objs : gmap string Stored) : list Object :=
  (fun '(n, o) => {| Name := n; Bytes := String.length (body o); Hash := etag o |})
    <$> merge_sort (fun a b => String.le a.1 b.1) (map_to_list objs).

(** [Connection.ObjectsAll] with no options: every object of the
    container.  The library fetches the listing page by page; the pages
    are taken as one request here. *)
Definition ObjectsAll (container : string) : M (Error + list Object) :=
  f <- issue (LIST container) ;;
  match f with
  | Some e => ret (inl e)
  | None =>
      fun s =>
        match containers s !! container with
        | None => (inl ContainerNotFound, s)
        | Some objs => (inr (listing objs), s)
        end
  end.

Section digest.

(** The digest that the store computes of an uploaded body (MD5, in
    hexadecimal) and reports as the object's [Hash]. *)
Variable md5 : string -> string.

(** [Connection.ObjectPut] with [checkHash] false and no [Hash] given:
    the body replaces whatever the name held. *)
Definition ObjectPut (container objectName contents : string) : M (option Error) :=
  f <- issue (PUT container objectName) ;;
  match f with
  | Some e => ret (Some e)
  | None =>
      fun s =>
        match containers s !! container with
        | None => (Some ObjectNotFound, s)
        | Some objs =>
            (None,
             set_containers
               (<[container := <[objectName := {| etag := md5 contents; body := contents |}]> objs]>
                  (containers s)) s)
        end
  end.

End digest.

End swift.

Declare Scope swift_scope.
Delimit Scope swift_scope with swift.
Notation "x <- m ;; k" := (swift.bind m (fun x => k))
  (at level 100, m at next level, right associativity) : swift_scope.
Open Scope swift_scope.

(** ** Errors, the local file system and the package pool *)

(** The values of Go's [error] that the storage handles: the sentinels
    of the Swift library, the [*os.PathError] of [os.Open], and the
    errors that [fmt.Errorf] builds, which are their message. *)
Inductive error :=
  | SwiftError (e : swift.Error)
  | PathError (Op Path Err : string)
  | Errorf (message : string).

(** The [Error()] method, which [%s] prints. *)
Definition Error (err : error) : string :=
  match err with
  | SwiftError e => swift.Text e
  | PathError Op Path Err => Op ++ " " ++ Path ++ ": " ++ Err
  | Errorf message => message
  end.

(** [os.Open] on a file system given as the contents of its regular
    files: the contents on success. *)
Definition os_Open (fs : gmap string string) (name : string) : error + string :=
  match fs !! name with
  | Some contents => inr contents
  | None => inl (PathError "open" name "no such file or directory")
  end.

(** The dynamic type of an [aptly.PackagePool] value: the local pool of
    package [files], or anything else. *)
Inductive PackagePool :=
  | files_PackagePool (rootPath : string)
  | other_PackagePool.

(** [aptly.Progress]; the storage never calls it. *)
Inductive Progress :=
  | no_Progress.

(** How a call ends: it returns its [error] ([None] is [nil]), or the
    goroutine panics. *)
Inductive outcome :=
  | Return (err : option error)
  | Panic.

(** ** PublishedStorage *)

(** [PublishedStorage]: an abstract file system with published files,
    hosted on Swift. *)
Record PublishedStorage := {
  swift : swift.Connection;
  container : string;
  prefix : string
}.

(** [NewPublishedStorage]: a prefix of [/] stands for no prefix. *)
Definition NewPublishedStorage (authUrl userName apiKey container' prefix' : string)
  : PublishedStorage * option error :=
  let result :=
    {| swift := {| swift.UserName := userName; swift.ApiKey := apiKey; swift.AuthUrl := authUrl |};
       container := container';
       prefix := prefix' |} in
  let result :=
    if String.eqb result.(prefix) "/"
    then {| swift := result.(swift); container := result.(container); prefix := "" |}
    else result in
  (result, None).

(** [PublishedStorage.String]. *)
Definition PublishedStorage_String (storage : PublishedStorage) : string :=
  "Swift: " ++ swift.AuthUrl storage.(swift) ++ " " ++ swift.UserName storage.(swift)
  ++ " " ++ storage.(container) ++ " " ++ storage.(prefix).

(** [MkDir] creates a directory recursively under the public path:
    "no op for Swift". *)
Definition MkDir (storage : PublishedStorage) (path : string) : swift.M (option error) :=
  swift.ret None.

(** [Remove] removes a single file under the public path. *)
Definition Remove (storage : PublishedStorage) (path : string) : swift.M (option error) :=
  err <- swift.ObjectDelete storage.(container) (filepath.Join storage.(prefix) path) ;;
  match err with
  | Some e =>
      swift.ret (Some (Errorf ("error deleting " ++ path ++ " from "
                               ++ PublishedStorage_String storage ++ ": " ++ swift.Text e)))
  | None => swift.ret None
  end.

(** [Filelist] returns the list of files under [prefix]. *)
Definition Filelist (storage : PublishedStorage) (prefix_ : string)
  : swift.M (error + list string) :=
  let prefix_ := filepath.Join storage.(prefix) prefix_ in
  let prefix_ := if negb (String.eqb prefix_ "") then prefix_ ++ "/" else prefix_ in
  r <- swift.ObjectsAll storage.(container) ;;
  match r with
  | inl err =>
      swift.ret (inl (Errorf ("error listing under prefix " ++ prefix_ ++ " in "
                              ++ PublishedStorage_String storage ++ ": " ++ swift.Text err)))
  | inr objects =>
      swift.ret (inr (fold_left (fun result object => (result ++ [swift.Name object])%list) objects []))
  end.

(** The loop of [RemoveDirs] over the file list. *)
Fixpoint RemoveDirs_range (storage : PublishedStorage) (filelist : list string)
  : swift.M (option error) :=
  match filelist with
  | [] => swift.ret None
  | filename :: rest =>
      err <- Remove storage filename ;;
      match err with
      | Some e => swift.ret (Some e)
      | None => RemoveDirs_range storage rest
      end
  end.

(** [RemoveDirs] removes the directory structure under the public path. *)
Definition RemoveDirs (storage : PublishedStorage) (path : string) (progress : Progress)
  : swift.M (option error) :=
  r <- Filelist storage path ;;
  match r with
  | inl err => swift.ret (Some err)
  | inr filelist => RemoveDirs_range storage filelist
  end.

(** [RenameFile] renames (moves) a file. *)
Definition RenameFile (storage : PublishedStorage) (oldName newName : string)
  : swift.M (option error) :=
  err <- swift.ObjectMove storage.(container) (filepath.Join storage.(prefix) oldName)
                          storage.(container) (filepath.Join storage.(prefix) newName) ;;
  swift.ret (SwiftError <$> err).

(** The states of the store that an observer can see while
    [RenameFile] runs: before the call, and after each of the requests
    that [ObjectMove] issues. *)
Definition RenameFile_states (storage : PublishedStorage) (oldName newName : string)
    (s : swift.Remote) : list swift.Remote :=
  let src := filepath.Join storage.(prefix) oldName in
  let dst := filepath.Join storage.(prefix) newName in
  let '(err, s1) := swift.ObjectCopy storage.(container) src storage.(container) dst s in
  match err with
  | Some _ => [s; s1]
  | None => [s; s1; (swift.ObjectDelete storage.(container) src s1).2]
  end.

Section local.

(** The digest of the store, and the files of the machine aptly runs on. *)
Variable md5 : string -> string.
Variable fs : gmap string string.

(** [PutFile] puts a file into the published storage at the given path. *)
Definition PutFile (storage : PublishedStorage) (path sourceFilename : string)
  : swift.M (option error) :=
  match os_Open fs sourceFilename with
  | inl err => swift.ret (Some err)
  | inr source =>
      err <- swift.ObjectPut md5 storage.(container)
                             (filepath.Join storage.(prefix) path) source ;;
      match err with
      | Some e =>
          swift.ret (Some (Errorf ("error uploading " ++ sourceFilename ++ " to "
                                   ++ PublishedStorage_String storage ++ ": " ++ swift.Text e)))
      | None => swift.ret None
      end
  end.

(** [LinkFromPool] links a package file from the pool to the dist's
    pool location. *)
Definition LinkFromPool (storage : PublishedStorage) (publishedDirectory : string)
    (sourcePool : PackagePool) (sourcePath sourceMD5 : string) (force : bool)
  : swift.M outcome :=
  match sourcePool with
  | other_PackagePool => swift.ret Panic   (* the type assertion fails *)
  | files_PackagePool _ =>
      let baseName := filepath.Base sourcePath in
      let relPath := filepath.Join publishedDirectory baseName in
      let poolPath := filepath.Join storage.(prefix) relPath in
      r <- swift.Object_ storage.(container) poolPath ;;
      match r with
      | inl err =>
          if negb (bool_decide (err = swift.ObjectNotFound)) then
            swift.ret (Return (Some (Errorf
              ("error getting information about " ++ poolPath ++ " from "
               ++ PublishedStorage_String storage ++ ": " ++ swift.Text err))))
          else
            err <- PutFile storage relPath sourcePath ;; swift.ret (Return err)
      | inr object =>
          let destinationMD5 := strings.Remove strings.dquote (swift.Hash object) in
          if String.eqb destinationMD5 sourceMD5 then swift.ret (Return None)
          else if negb force && negb (String.eqb destinationMD5 sourceMD5) then
            swift.ret (Return (Some (Errorf
              ("error putting file to " ++ poolPath
               ++ ": file already exists and is different: "
               ++ PublishedStorage_String storage))))
          else
            err <- PutFile storage relPath sourcePath ;; swift.ret (Return err)
      end
  end.

End local.

(** ** Sample data

    A small account used to run the methods on concrete inputs: one
    container, a storage rooted at [public] in it and one at the root of
    the container, and a package pool on the local disk. *)

Module sample.

(** MD5 on the contents of the sample files. *)
Definition md5 (contents : string) : string :=
  if String.eqb contents "hello 1.0" then "4808add4dea8ff7aea575ebb147e780c"
  else if String.eqb contents "hello 1.0 rebuilt" then "1c10d88375331350fc0c2e1e0bbf76b2"
  else if String.eqb contents "Origin: demo" then "3484d30c6156bb89791369039baec8cc"
  else "d41d8cd98f00b204e9800998ecf8427e".

Definition fs : gmap string string :=
  list_to_map
    [("/var/aptly/pool/48/08/hello_1.0_amd64.deb", "hello 1.0");
     ("/var/aptly/pool/1c/10/hello_1.0_amd64.deb", "hello 1.0 rebuilt");
     ("/tmp/Release", "Origin: demo")].

Definition pool : PackagePool := files_PackagePool "/var/aptly/pool".

Definition rooted : PublishedStorage :=
  (NewPublishedStorage "https://auth.example.org/v1.0" "aptly" "secret" "repo" "public").1.

Definition flat : PublishedStorage :=
  (NewPublishedStorage "https://auth.example.org/v1.0" "aptly" "secret" "repo" "/").1.

Definition object (contents : string) : swift.Stored :=
  {| swift.etag := md5 contents; swift.body := contents |}.

Definition remote (objects : list (string * swift.Stored)) (faults : list (option swift.Error))
  : swift.Remote :=
  {| swift.containers := {[ "repo" := list_to_map objects ]};
     swift.faults := faults;
     swift.log := [] |}.

(** A container shared by the published tree under [public] and by
    something else. *)
Definition shared : swift.Remote :=
  remote [("public/pool/main/h/hello/hello_1.0_amd64.deb", object "hello 1.0");
          ("public/dists/stable/Release", object "Origin: demo");
          ("backup/notes.txt", object "")] [].

(** A container that holds one published package, and one that holds two. *)
Definition one : list (string * swift.Stored) :=
  [("pool/main/h/hello/hello_1.0_amd64.deb", object "hello 1.0")].

Definition two : list (string * swift.Stored) :=
  [("pool/a.deb", object "hello 1.0"); ("pool/b.deb", object "hello 1.0 rebuilt")].

Definition three : list (string * swift.Stored) :=
  [("pool/a.deb", object "hello 1.0"); ("pool/b.deb", object "hello 1.0 rebuilt");
   ("pool/c.deb", object "Origin: demo")].

(** The two builds of the same package file in the pool, and their
    checksums. *)
Definition hello : string := "/var/aptly/pool/48/08/hello_1.0_amd64.deb".
Definition hello_sum : string := "4808add4dea8ff7aea575ebb147e780c".
Definition rebuilt : string := "/var/aptly/pool/1c/10/hello_1.0_amd64.deb".
Definition rebuilt_sum : string := "1c10d88375331350fc0c2e1e0bbf76b2".

(** The first build as a store would hold it that reports its hashes
    between double quotes. *)
Definition quoted : swift.Stored :=
  {| swift.etag := String strings.dquote (hello_sum ++ String strings.dquote "");
     swift.body := "hello 1.0" |}.

(** A path of the pool at which there is no file. *)
Definition missing : string := "/var/aptly/pool/00/00/gone_1.0_amd64.deb".

End sample.

(** * Properties *)

(** ** The path functions on a few inputs *)

Example Clean_samples :
  map filepath.Clean ["a//b/./c/.."; "/../a"; "../../x"; ""; "a/.."; "/"; "a/b/"]
  = ["a/b"; "/a"; "../../x"; "."; "."; "/"; "a/b"].
Proof. reflexivity. Qed.

Example Join_samples :
  [filepath.Join "" ""; filepath.Join "" "pool"; filepath.Join "repo" "";
   filepath.Join "repo" "pool/main"; filepath.Join "repo/" "/x"; filepath.Join "a" "../b"]
  = [""; "pool"; "repo"; "repo/pool/main"; "repo/x"; "b"].
Proof. reflexivity. Qed.

Example Base_samples :
  map filepath.Base ["/var/pool/ab/cd/hello_1.0_amd64.deb"; "x.deb"; ""; "///"; "a/b/"]
  = ["hello_1.0_amd64.deb"; "x.deb"; "."; "/"; "b"].
Proof. reflexivity. Qed.

(** ** The store *)

Lemma clear_next_fault n s : swift.clear (S n) s -> swift.next_fault s = None.
Proof.
  unfold swift.clear, swift.next_fault.
  destruct (swift.faults s) as [|f r]; [done|].
  simpl. by intros [-> _]%Forall_cons.
Qed.

Lemma clear_sent n r s : swift.clear (S n) s -> swift.clear n (swift.sent r s).
Proof.
  unfold swift.clear, swift.sent. simpl.
  destruct (swift.faults s) as [|f fs]; simpl.
  - intros _. rewrite take_nil. constructor.
  - by intros [_ ?]%Forall_cons.
Qed.

Lemma stored_insert c n v objs cs (s : swift.Remote) :
  swift.stored c n (swift.set_containers (<[c := <[n := v]> objs]> cs) s) = Some v.
Proof.
  unfold swift.stored. simpl.
  rewrite lookup_insert_eq. simpl. by rewrite lookup_insert_eq.
Qed.

Lemma stored_insert_ne c n v objs c' n' (s s0 : swift.Remote) :
  swift.containers s0 !! c = Some objs ->
  (c', n') <> (c, n) ->
  swift.stored c' n' (swift.set_containers (<[c := <[n := v]> objs]> (swift.containers s0)) s)
  = swift.stored c' n' s0.
Proof.
  intros Hc Hne. unfold swift.stored. simpl.
  destruct (decide (c = c')) as [<-|Hcc].
  - rewrite lookup_insert_eq, Hc. simpl.
    rewrite lookup_insert_ne; [done|congruence].
  - by rewrite lookup_insert_ne.
Qed.

Lemma stored_delete c n objs cs (s : swift.Remote) :
  swift.stored c n (swift.set_containers (<[c := delete n objs]> cs) s) = None.
Proof.
  unfold swift.stored. simpl.
  rewrite lookup_insert_eq. simpl. by rewrite lookup_delete_eq.
Qed.

Lemma stored_delete_ne c n objs c' n' (s s0 : swift.Remote) :
  swift.containers s0 !! c = Some objs ->
  (c', n') <> (c, n) ->
  swift.stored c' n' (swift.set_containers (<[c := delete n objs]> (swift.containers s0)) s)
  = swift.stored c' n' s0.
Proof.
  intros Hc Hne. unfold swift.stored. simpl.
  destruct (decide (c = c')) as [<-|Hcc].
  - rewrite lookup_insert_eq, Hc. simpl.
    rewrite lookup_delete_ne; [done|congruence].
  - by rewrite lookup_insert_ne.
Qed.

(** What the probe returns, and that it only sends its request. *)
Lemma Object__eq c n s :
  swift.Object_ c n s =
  (match swift.next_fault s with
   | Some e => inl e
   | None =>
       match swift.stored c n s with
       | None => inl swift.ObjectNotFound
       | Some o =>
           inr {| swift.Name := n; swift.Bytes := String.length (swift.body o);
                  swift.Hash := swift.etag o |}
       end
   end, swift.sent (swift.HEAD c n) s).
Proof.
  unfold swift.Object_, swift.bind, swift.issue, swift.ret, swift.stored.
  destruct (swift.next_fault s); [done|]. simpl.
  by destruct (swift.containers s !! c ≫= _).
Qed.

(** What a deletion does. *)
Lemma ObjectDelete_eq c n s :
  swift.ObjectDelete c n s =
  match swift.next_fault s with
  | Some e => (Some e, swift.sent (swift.DELETE c n) s)
  | None =>
      match swift.containers s !! c with
      | None => (Some swift.ObjectNotFound, swift.sent (swift.DELETE c n) s)
      | Some objs =>
          match objs !! n with
          | None => (Some swift.ObjectNotFound, swift.sent (swift.DELETE c n) s)
          | Some _ =>
              (None, swift.set_containers (<[c := delete n objs]> (swift.containers s))
                       (swift.sent (swift.DELETE c n) s))
          end
      end
  end.
Proof.
  unfold swift.ObjectDelete, swift.bind, swift.issue, swift.ret.
  destruct (swift.next_fault s); [done|]. simpl.
  destruct (swift.containers s !! c) as [objs|]; [|done].
  by destruct (objs !! n).
Qed.

Lemma ObjectDelete_log c n s :
  swift.log (swift.ObjectDelete c n s).2 = (swift.log s ++ [swift.DELETE c n])%list.
Proof.
  rewrite ObjectDelete_eq.
  destruct (swift.next_fault s); [done|].
  destruct (swift.containers s !! c) as [objs|]; [|done].
  by destruct (objs !! n).
Qed.

Lemma ObjectDelete_failed c n s e s' :
  swift.ObjectDelete c n s = (Some e, s') -> s' = swift.sent (swift.DELETE c n) s.
Proof.
  rewrite ObjectDelete_eq.
  destruct (swift.next_fault s); [congruence|].
  destruct (swift.containers s !! c) as [objs|]; [|congruence].
  destruct (objs !! n); congruence.
Qed.

(** ** MkDir *)

(** C8. On the Swift backend [MkDir] does nothing at all: for every
    storage, path and state of the store it returns [nil] and hands back
    the very state it was given, objects, fault schedule and request log
    included; the storage's own configuration is a value it cannot
    change. *)
Theorem MkDir_noop (storage : PublishedStorage) (path : string) (s : swift.Remote) :
  MkDir storage path s = (None, s).
Proof. reflexivity. Qed.

(** ** Remove *)

Lemma Remove_log storage path s :
  swift.log (Remove storage path s).2
  = (swift.log s
     ++ [swift.DELETE storage.(container) (filepath.Join storage.(prefix) path)])%list.
Proof.
  unfold Remove, swift.bind.
  pose proof (ObjectDelete_log storage.(container)
                (filepath.Join storage.(prefix) path) s) as Hlog.
  destruct (swift.ObjectDelete _ _ s) as [[e|] s']; exact Hlog.
Qed.

Lemma Remove_failed storage path s e s' :
  Remove storage path s = (Some e, s') ->
  swift.containers s' = swift.containers s.
Proof.
  unfold Remove, swift.bind, swift.ret.
  destruct (swift.ObjectDelete _ _ s) as [[e'|] s1] eqn:Hdel; [|congruence].
  intros [= _ <-]. by rewrite (ObjectDelete_failed _ _ _ _ _ Hdel).
Qed.

Lemma Remove_done storage path s s' :
  Remove storage path s = (None, s') ->
  swift.stored storage.(container) (filepath.Join storage.(prefix) path) s' = None.
Proof.
  unfold Remove, swift.bind, swift.ret. rewrite ObjectDelete_eq.
  destruct (swift.next_fault s); [congruence|].
  destruct (swift.containers s !! storage.(container)) as [objs|]; [|congruence].
  destruct (objs !! filepath.Join storage.(prefix) path); [|congruence].
  intros [= <-]. apply stored_delete.
Qed.

(** C5, as the code has it.  When no transport fault hits the request,
    [Remove path] succeeds exactly when an object is stored under the
    key of [path]: it then deletes that object and no other.  On a path
    with no object it fails with the store's [Object Not Found], wrapped
    in its own message, and leaves every object as it was. *)
Theorem Remove_exactly_one (storage : PublishedStorage) (path : string) (s : swift.Remote) :
  swift.clear 1 s ->
  let key := filepath.Join storage.(prefix) path in
  (is_Some (swift.stored storage.(container) key s) ->
   exists s',
     Remove storage path s = (None, s')
     /\ swift.stored storage.(container) key s' = None
     /\ forall c n, (c, n) <> (storage.(container), key) ->
                    swift.stored c n s' = swift.stored c n s)
  /\ (swift.stored storage.(container) key s = None ->
      exists s',
        Remove storage path s
        = (Some (Errorf ("error deleting " ++ path ++ " from "
                         ++ PublishedStorage_String storage ++ ": Object Not Found")), s')
        /\ swift.containers s' = swift.containers s).
Proof.
  intros Hclear key.
  apply clear_next_fault in Hclear.
  unfold Remove, swift.bind, swift.ret. fold key.
  rewrite ObjectDelete_eq, Hclear.
  unfold swift.stored.
  destruct (swift.containers s !! storage.(container)) as [objs|] eqn:Hc; simpl.
  - destruct (objs !! key) as [o|] eqn:Ho; split.
    + intros _. eexists. split; [reflexivity|]. split.
      * apply stored_delete.
      * intros c n Hne. by apply (stored_delete_ne _ _ _ _ _ _ s).
    + done.
    + by intros [? ?].
    + intros _. eexists. split; reflexivity.
  - split; [by intros [? ?]|].
    intros _. eexists. split; reflexivity.
Qed.

(** ** Filelist *)

Lemma append_names (objects : list swift.Object) (acc : list string) :
  fold_left (fun result object => (result ++ [swift.Name object])%list) objects acc
  = (acc ++ (swift.Name <$> objects))%list.
Proof.
  revert acc. induction objects as [|o objects IH]; intros acc; simpl.
  - by rewrite app_nil_r.
  - rewrite IH. by rewrite <- app_assoc.
Qed.

Lemma listing_names (objs : gmap string swift.Stored) (n : string) :
  n ∈ (swift.Name <$> swift.listing objs) <-> is_Some (objs !! n).
Proof.
  unfold swift.listing. rewrite <- list_fmap_compose.
  rewrite list_elem_of_fmap. split.
  - intros ([n' o] & -> & Hin). simpl.
    rewrite merge_sort_Permutation in Hin.
    apply elem_of_map_to_list in Hin. eauto.
  - intros [o Ho]. exists (n, o). split; [done|].
    rewrite merge_sort_Permutation. by apply elem_of_map_to_list.
Qed.

(** [Filelist] sends one listing request; the prefix it is given only
    ever reaches the text of the error. *)
Lemma Filelist_eq storage prefix_ s :
  Filelist storage prefix_ s =
  (match swift.next_fault s with
   | Some e =>
       inl (Errorf ("error listing under prefix "
                    ++ (let p := filepath.Join storage.(prefix) prefix_ in
                        if negb (String.eqb p "") then p ++ "/" else p)
                    ++ " in " ++ PublishedStorage_String storage ++ ": " ++ swift.Text e))
   | None =>
       match swift.containers s !! storage.(container) with
       | None =>
           inl (Errorf ("error listing under prefix "
                        ++ (let p := filepath.Join storage.(prefix) prefix_ in
                            if negb (String.eqb p "") then p ++ "/" else p)
                        ++ " in " ++ PublishedStorage_String storage
                        ++ ": " ++ swift.Text swift.ContainerNotFound))
       | Some objs => inr (swift.Name <$> swift.listing objs)
       end
   end, swift.sent (swift.LIST storage.(container)) s).
Proof.
  unfold Filelist, swift.ObjectsAll, swift.bind, swift.issue, swift.ret.
  destruct (swift.next_fault s); [done|]. simpl.
  destruct (swift.containers s !! storage.(container)); [|done].
  by rewrite append_names.
Qed.

(** A listing that succeeds names every object of the container, under
    its full key, whatever prefix was asked for. *)
Lemma Filelist_whole_container storage prefix_ s filelist s' :
  Filelist storage prefix_ s = (inr filelist, s') ->
  forall n, n ∈ filelist <-> is_Some (swift.stored storage.(container) n s).
Proof.
  rewrite Filelist_eq. unfold swift.stored.
  destruct (swift.next_fault s); [congruence|].
  destruct (swift.containers s !! storage.(container)) as [objs|]; [|congruence].
  intros [= <- _] n. simpl. apply listing_names.
Qed.

(** ** RemoveDirs *)

Lemma RemoveDirs_range_app storage before after s :
  RemoveDirs_range storage (before ++ after) s =
  match RemoveDirs_range storage before s with
  | (Some e, s1) => (Some e, s1)
  | (None, s1) => RemoveDirs_range storage after s1
  end.
Proof.
  revert s. induction before as [|f before IH]; intros s; [done|].
  simpl. unfold swift.bind, swift.ret.
  destruct (Remove storage f s) as [[e|] s1]; [done|]. apply IH.
Qed.

Lemma RemoveDirs_range_log storage filelist s s' :
  RemoveDirs_range storage filelist s = (None, s') ->
  swift.log s'
  = (swift.log s
     ++ ((fun f => swift.DELETE storage.(container) (filepath.Join storage.(prefix) f))
           <$> filelist))%list.
Proof.
  revert s. induction filelist as [|f filelist IH]; intros s; simpl.
  - intros [= <-]. by rewrite app_nil_r.
  - unfold swift.bind, swift.ret.
    pose proof (Remove_log storage f s) as Hlog.
    destruct (Remove storage f s) as [[e|] s1]; [congruence|].
    intros Hrest. rewrite (IH _ Hrest). simpl in Hlog. rewrite Hlog.
    by rewrite <- app_assoc.
Qed.

(** C6, as the code has it.  [RemoveDirs path] takes the list that
    [Filelist path] returns and removes its entries one at a time, in
    the order of the list.  The first removal that fails ends the call:
    its error is returned, the store is as the removals before it left
    it, and the deletions requested are those of the entries up to and
    including the failing one; no entry after it is attempted. *)
Theorem RemoveDirs_stops_at_first_failure
    (storage : PublishedStorage) (path : string) (progress : Progress)
    (s s0 s1 s2 : swift.Remote) (before after : list string) (filename : string)
    (e : error) :
  Filelist storage path s = (inr (before ++ filename :: after)%list, s0) ->
  RemoveDirs_range storage before s0 = (None, s1) ->
  Remove storage filename s1 = (Some e, s2) ->
  RemoveDirs storage path progress s = (Some e, s2)
  /\ swift.containers s2 = swift.containers s1
  /\ swift.log s2
     = (swift.log s
        ++ swift.LIST storage.(container)
           :: ((fun f => swift.DELETE storage.(container) (filepath.Join storage.(prefix) f))
                 <$> (before ++ [filename])))%list.
Proof.
  intros Hlist Hbefore Hfail. split; [|split].
  - unfold RemoveDirs, swift.bind. rewrite Hlist.
    rewrite RemoveDirs_range_app, Hbefore. simpl.
    unfold swift.bind, swift.ret. by rewrite Hfail.
  - eapply Remove_failed, Hfail.
  - pose proof (Remove_log storage filename s1) as Hlog.
    rewrite Hfail in Hlog. simpl in Hlog. rewrite Hlog.
    rewrite (RemoveDirs_range_log _ _ _ _ Hbefore).
    rewrite Filelist_eq in Hlist. injection Hlist as _ <-. simpl.
    rewrite fmap_app. simpl. by rewrite <- !app_assoc.
Qed.

(** ** RenameFile *)

Lemma ObjectCopy_eq c n c' n' s :
  swift.ObjectCopy c n c' n' s =
  match swift.next_fault s with
  | Some e => (Some e, swift.sent (swift.COPY c n c' n') s)
  | None =>
      match swift.stored c n s, swift.containers s !! c' with
      | Some o, Some objs =>
          (None, swift.set_containers (<[c' := <[n' := o]> objs]> (swift.containers s))
                   (swift.sent (swift.COPY c n c' n') s))
      | _, _ => (Some swift.ObjectNotFound, swift.sent (swift.COPY c n c' n') s)
      end
  end.
Proof.
  unfold swift.ObjectCopy, swift.bind, swift.issue, swift.ret, swift.stored.
  destruct (swift.next_fault s); [done|]. simpl.
  destruct (swift.containers s !! c ≫= _); [|done].
  by destruct (swift.containers s !! c').
Qed.

Lemma stored_container c n s o :
  swift.stored c n s = Some o ->
  exists objs, swift.containers s !! c = Some objs /\ objs !! n = Some o.
Proof.
  unfold swift.stored.
  destruct (swift.containers s !! c) as [objs|]; simpl; [eauto|done].
Qed.

(** C9, as the code has it.  Take [oldName] and [newName] whose keys
    differ, and a file stored at [oldName].  In every state of the store
    that can be observed while [RenameFile] runs, the file is at
    [oldName] or at [newName]: the copy comes first and the source is
    deleted only once the copy has succeeded.  The last of these states
    is the one [RenameFile] returns; when it returns [nil] the file is
    at [newName] and no longer at [oldName], and it does return [nil]
    when no transport fault hits its two requests. *)
Theorem RenameFile_keeps_file
    (storage : PublishedStorage) (oldName newName : string) (s : swift.Remote)
    (o : swift.Stored) :
  let src := filepath.Join storage.(prefix) oldName in
  let dst := filepath.Join storage.(prefix) newName in
  src <> dst ->
  swift.stored storage.(container) src s = Some o ->
  Forall (fun st => swift.stored storage.(container) src st = Some o
                    \/ swift.stored storage.(container) dst st = Some o)
         (RenameFile_states storage oldName newName s)
  /\ last (RenameFile_states storage oldName newName s)
     = Some (RenameFile storage oldName newName s).2
  /\ (forall s', RenameFile storage oldName newName s = (None, s') ->
                 swift.stored storage.(container) dst s' = Some o
                 /\ swift.stored storage.(container) src s' = None)
  /\ (swift.clear 2 s -> (RenameFile storage oldName newName s).1 = None).
Proof.
  intros src dst Hne Hsrc.
  destruct (stored_container _ _ _ _ Hsrc) as (objs & Hc & Ho).
  unfold RenameFile_states, RenameFile, swift.ObjectMove, swift.bind, swift.ret.
  fold src dst. rewrite ObjectCopy_eq.
  destruct (swift.next_fault s) as [e|] eqn:Hfault.
  { (* the copy is hit by a fault: nothing has changed *)
    split; [|split; [|split]].
    - repeat (constructor; [by left|]). constructor.
    - done.
    - intros s' [=].
    - intros Hclear. apply (clear_next_fault 1) in Hclear. congruence. }
  rewrite Hsrc, Hc.
  set (s1 := swift.set_containers _ _).
  assert (Hdst1 : swift.stored storage.(container) dst s1 = Some o)
    by apply stored_insert.
  assert (Hsrc1 : swift.stored storage.(container) src s1 = Some o).
  { unfold s1. rewrite (stored_insert_ne _ _ _ _ _ _ _ s Hc); [done|congruence]. }
  destruct (stored_container _ _ _ _ Hsrc1) as (objs1 & Hc1 & Ho1).
  rewrite ObjectDelete_eq, Hc1, Ho1.
  destruct (swift.next_fault s1) as [e|] eqn:Hfault1; simpl.
  { (* the deletion is hit by a fault: the file is at both names *)
    split; [|split; [|split]].
    - repeat (constructor; [by left|]). constructor.
    - done.
    - intros s' [=].
    - intros Hclear. apply (clear_sent 1 (swift.COPY storage.(container) src
                                            storage.(container) dst)) in Hclear.
      apply clear_next_fault in Hclear. unfold s1 in Hfault1.
      unfold swift.next_fault in *. simpl in *. congruence. }
  assert (Hdst2 : swift.stored storage.(container) dst
                    (swift.set_containers
                       (<[storage.(container) := delete src objs1]> (swift.containers s1))
                       (swift.sent (swift.DELETE storage.(container) src) s1)) = Some o).
  { rewrite (stored_delete_ne _ _ _ _ _ _ s1 Hc1); [done|congruence]. }
  split; [|split; [|split]].
  - do 2 (constructor; [by left|]). constructor; [by right|]. constructor.
  - done.
  - intros s' [= <-]. split; [done|]. apply stored_delete.
  - done.
Qed.

(** ** PutFile and LinkFromPool *)

Section linking.

Variable md5 : string -> string.
Variable fs : gmap string string.

Lemma PutFile_eq storage path sourceFilename s :
  PutFile md5 fs storage path sourceFilename s =
  let key := filepath.Join storage.(prefix) path in
  match fs !! sourceFilename with
  | None => (Some (PathError "open" sourceFilename "no such file or directory"), s)
  | Some contents =>
      match swift.next_fault s with
      | Some e =>
          (Some (Errorf ("error uploading " ++ sourceFilename ++ " to "
                         ++ PublishedStorage_String storage ++ ": " ++ swift.Text e)),
           swift.sent (swift.PUT storage.(container) key) s)
      | None =>
          match swift.containers s !! storage.(container) with
          | None =>
              (Some (Errorf ("error uploading " ++ sourceFilename ++ " to "
                             ++ PublishedStorage_String storage ++ ": "
                             ++ swift.Text swift.ObjectNotFound)),
               swift.sent (swift.PUT storage.(container) key) s)
          | Some objs =>
              (None,
               swift.set_containers
                 (<[storage.(container) :=
                      <[key := {| swift.etag := md5 contents; swift.body := contents |}]> objs]>
                    (swift.containers s))
                 (swift.sent (swift.PUT storage.(container) key) s))
          end
      end
  end.
Proof.
  unfold PutFile, os_Open, swift.ObjectPut, swift.bind, swift.issue, swift.ret.
  destruct (fs !! sourceFilename); [|done]. simpl.
  destruct (swift.next_fault s); [done|]. simpl.
  by destruct (swift.containers s !! storage.(container)).
Qed.

(** An upload that succeeds leaves the file's contents, with their
    digest, under the key of the path, and touches no other object. *)
Lemma PutFile_stored storage path sourceFilename s s' :
  PutFile md5 fs storage path sourceFilename s = (None, s') ->
  exists contents,
    fs !! sourceFilename = Some contents
    /\ swift.stored storage.(container) (filepath.Join storage.(prefix) path) s'
       = Some {| swift.etag := md5 contents; swift.body := contents |}
    /\ forall c n, (c, n) <> (storage.(container), filepath.Join storage.(prefix) path) ->
                   swift.stored c n s' = swift.stored c n s.
Proof.
  rewrite PutFile_eq. simpl.
  destruct (fs !! sourceFilename) as [contents|]; [|congruence].
  destruct (swift.next_fault s); [congruence|].
  destruct (swift.containers s !! storage.(container)) as [objs|] eqn:Hc; [|congruence].
  intros [= <-]. exists contents. split; [done|]. split.
  - apply stored_insert.
  - intros c n Hne. by apply (stored_insert_ne _ _ _ _ _ _ _ s).
Qed.

(** C10. Whatever [force] is, when the probe for the destination object
    fails with an error other than [ObjectNotFound], [LinkFromPool]
    returns at once with that error (inside its own message): the probe
    is the only request it has sent, so nothing was uploaded, and every
    object of the store is as it was. *)
Theorem LinkFromPool_probe_error
    (storage : PublishedStorage) (publishedDirectory rootPath sourcePath sourceMD5 : string)
    (force : bool) (s s1 : swift.Remote) (err : swift.Error) :
  let poolPath :=
    filepath.Join storage.(prefix)
      (filepath.Join publishedDirectory (filepath.Base sourcePath)) in
  swift.Object_ storage.(container) poolPath s = (inl err, s1) ->
  err <> swift.ObjectNotFound ->
  LinkFromPool md5 fs storage publishedDirectory (files_PackagePool rootPath)
               sourcePath sourceMD5 force s
  = (Return (Some (Errorf ("error getting information about " ++ poolPath ++ " from "
                           ++ PublishedStorage_String storage ++ ": " ++ swift.Text err))),
     s1)
  /\ swift.containers s1 = swift.containers s
  /\ swift.log s1 = (swift.log s ++ [swift.HEAD storage.(container) poolPath])%list.
Proof.
  intros poolPath Hprobe Hne.
  unfold LinkFromPool, swift.bind. fold poolPath. rewrite Hprobe.
  rewrite bool_decide_eq_false_2 by done. simpl. split; [done|].
  rewrite Object__eq in Hprobe. by injection Hprobe as _ <-.
Qed.

(** C3. Let the checksum of a pool entry be the digest that the store
    reports for the entry's file.  Once [LinkFromPool] has succeeded for
    the entry and a destination directory, a second call with the same
    arguments, whose probe reaches the store, succeeds too and is a
    no-op: the probe is all it sends, and the objects of the store are
    those the first call left. *)
Theorem LinkFromPool_idempotent
    (storage : PublishedStorage) (publishedDirectory rootPath sourcePath sourceMD5 : string)
    (force : bool) (s s1 : swift.Remote) :
  (forall contents, fs !! sourcePath = Some contents ->
                    strings.Remove strings.dquote (md5 contents) = sourceMD5) ->
  LinkFromPool md5 fs storage publishedDirectory (files_PackagePool rootPath)
               sourcePath sourceMD5 force s = (Return None, s1) ->
  swift.clear 1 s1 ->
  exists s2,
    LinkFromPool md5 fs storage publishedDirectory (files_PackagePool rootPath)
                 sourcePath sourceMD5 force s1 = (Return None, s2)
    /\ swift.containers s2 = swift.containers s1
    /\ swift.log s2
       = (swift.log s1
          ++ [swift.HEAD storage.(container)
                (filepath.Join storage.(prefix)
                   (filepath.Join publishedDirectory (filepath.Base sourcePath)))])%list.
Proof.
  intros Hentry Hfirst Hclear.
  set (relPath := filepath.Join publishedDirectory (filepath.Base sourcePath)) in *.
  set (poolPath := filepath.Join storage.(prefix) relPath) in *.
  assert (Hpublished : exists o,
             swift.stored storage.(container) poolPath s1 = Some o
             /\ strings.Remove strings.dquote (swift.etag o) = sourceMD5).
  { revert Hfirst. unfold LinkFromPool, swift.bind, swift.ret.
    fold relPath poolPath. rewrite Object__eq.
    set (s0 := swift.sent _ s).
    assert (Hupload : forall s',
               (let '(a, s'') := PutFile md5 fs storage relPath sourcePath s0 in
                (Return a, s'')) = (Return None, s') ->
               exists o, swift.stored storage.(container) poolPath s' = Some o
                         /\ strings.Remove strings.dquote (swift.etag o) = sourceMD5).
    { intros s'. destruct (PutFile _ _ _ _ _ s0) as [r s''] eqn:Hput.
      intros [= -> ->].
      destruct (PutFile_stored _ _ _ _ _ Hput) as (contents & Hfile & Hobj & _).
      eexists. split; [exact Hobj|]. simpl. by apply Hentry. }
    destruct (swift.next_fault s) as [e|].
    - destruct (bool_decide (e = swift.ObjectNotFound)); simpl; [apply Hupload|congruence].
    - destruct (swift.stored storage.(container) poolPath s) as [o|] eqn:Hprobe;
        simpl; [|apply Hupload].
      destruct (String.eqb_spec (strings.Remove strings.dquote (swift.etag o)) sourceMD5)
        as [Hsame|Hdiff].
      + intros [= <-]. by exists o.
      + destruct force; simpl; [apply Hupload|congruence]. }
  destruct Hpublished as (o & Hobj & Hsame).
  unfold LinkFromPool, swift.bind, swift.ret. fold relPath poolPath.
  rewrite Object__eq, (clear_next_fault _ _ Hclear), Hobj. simpl.
  rewrite Hsame, String.eqb_refl. eauto.
Qed.

(** C2, as the code has it.  Let the destination of a pool entry hold an
    object whose digest differs from the entry's checksum, and let no
    transport fault hit the call.  Without [force], [LinkFromPool] fails
    with an error whose message is made of the destination key and of
    the description of the storage, and of nothing else; the probe is
    the only request sent and the objects of the store are unchanged.
    With [force], for an entry whose file is readable and has the
    entry's checksum as digest, it succeeds, the destination then holds
    the file's contents under that checksum, and no other object has
    changed. *)
Theorem LinkFromPool_conflict
    (storage : PublishedStorage) (publishedDirectory rootPath sourcePath sourceMD5 : string)
    (s : swift.Remote) (o : swift.Stored) :
  let poolPath :=
    filepath.Join storage.(prefix)
      (filepath.Join publishedDirectory (filepath.Base sourcePath)) in
  swift.stored storage.(container) poolPath s = Some o ->
  strings.Remove strings.dquote (swift.etag o) <> sourceMD5 ->
  swift.clear 2 s ->
  (exists s1,
     LinkFromPool md5 fs storage publishedDirectory (files_PackagePool rootPath)
                  sourcePath sourceMD5 false s
     = (Return (Some (Errorf ("error putting file to " ++ poolPath
                              ++ ": file already exists and is different: "
                              ++ PublishedStorage_String storage))), s1)
     /\ swift.containers s1 = swift.containers s
     /\ swift.log s1 = (swift.log s ++ [swift.HEAD storage.(container) poolPath])%list)
  /\ (forall contents,
        fs !! sourcePath = Some contents ->
        md5 contents = sourceMD5 ->
        exists s2,
          LinkFromPool md5 fs storage publishedDirectory (files_PackagePool rootPath)
                       sourcePath sourceMD5 true s = (Return None, s2)
          /\ swift.stored storage.(container) poolPath s2
             = Some {| swift.etag := sourceMD5; swift.body := contents |}
          /\ forall c n, (c, n) <> (storage.(container), poolPath) ->
                         swift.stored c n s2 = swift.stored c n s).
Proof.
  intros poolPath Hobj Hdiff Hclear.
  pose proof (clear_next_fault _ _ Hclear) as Hprobe.
  apply String.eqb_neq in Hdiff.
  split.
  - unfold LinkFromPool, swift.bind, swift.ret. fold poolPath.
    rewrite Object__eq, Hprobe, Hobj. simpl. rewrite Hdiff. simpl. eauto.
  - intros contents Hfile Hsum.
    destruct (stored_container _ _ _ _ Hobj) as (objs & Hc & _).
    unfold LinkFromPool, swift.bind, swift.ret. fold poolPath.
    rewrite Object__eq, Hprobe, Hobj. simpl. rewrite Hdiff. simpl.
    rewrite PutFile_eq, Hfile. simpl.
    apply (clear_sent 1 (swift.HEAD storage.(container) poolPath)) in Hclear.
    rewrite (clear_next_fault _ _ Hclear). simpl. rewrite Hc.
    eexists. split; [reflexivity|]. split.
    + rewrite <- Hsum. apply stored_insert.
    + intros c n Hne. by apply (stored_insert_ne _ _ _ _ _ _ _ s).
Qed.

(** What does hold of the round trip: after a successful [PutFile] a
    listing names the key of the path, and after a successful [Remove]
    it names it no more. *)
Lemma PutFile_then_Filelist_key storage path sourceFilename prefix_ s s1 s2 filelist :
  PutFile md5 fs storage path sourceFilename s = (None, s1) ->
  Filelist storage prefix_ s1 = (inr filelist, s2) ->
  filepath.Join storage.(prefix) path ∈ filelist.
Proof.
  intros Hput Hlist.
  destruct (PutFile_stored _ _ _ _ _ Hput) as (contents & _ & Hobj & _).
  apply (Filelist_whole_container _ _ _ _ _ Hlist). by rewrite Hobj.
Qed.

Lemma Remove_then_Filelist_key storage path prefix_ s s1 s2 filelist :
  Remove storage path s = (None, s1) ->
  Filelist storage prefix_ s1 = (inr filelist, s2) ->
  filepath.Join storage.(prefix) path ∉ filelist.
Proof.
  intros Hremove Hlist Hin.
  apply (Filelist_whole_container _ _ _ _ _ Hlist) in Hin.
  rewrite (Remove_done _ _ _ _ Hremove) in Hin. by destruct Hin.
Qed.

End linking.

(** * The methods on the sample account *)

(** C1, on the code.  A storage rooted at [public] is asked for the
    files under [pool] in a container that also holds an index file of
    the same tree and an object outside the tree.  The listing succeeds
    and names all three objects under their full keys, where the files
    under the prefix are the single path
    [pool/main/h/hello/hello_1.0_amd64.deb]. *)
Theorem Filelist_lists_outside_prefix :
  (Filelist sample.rooted "pool" sample.shared).1
  = inr ["backup/notes.txt";
         "public/dists/stable/Release";
         "public/pool/main/h/hello/hello_1.0_amd64.deb"].
Proof. vm_compute. reflexivity. Qed.

(** C7, on the code.  On a storage rooted at [public], [PutFile]
    succeeds for [pool/hello_1.0_amd64.deb]; the list that
    [Filelist "pool"] then returns holds the key of the object and not
    the path it was put at. *)
Theorem PutFile_then_Filelist_misses_path :
  let path := "pool/hello_1.0_amd64.deb" in
  let put := PutFile sample.md5 sample.fs sample.rooted path sample.hello
                     (sample.remote [] []) in
  put.1 = None
  /\ (Filelist sample.rooted "pool" put.2).1 = inr ["public/pool/hello_1.0_amd64.deb"]
  /\ path ∉ ["public/pool/hello_1.0_amd64.deb"].
Proof.
  split; [vm_compute; reflexivity|]. split; [vm_compute; reflexivity|].
  intros Hin. apply list_elem_of_singleton in Hin. discriminate Hin.
Qed.

(** C4, on the code.  Two successful calls that publish the same pool
    file into two different directories both return the [nil] error and
    nothing else, while the objects they create are under different
    paths: what a call returns does not tell the path. *)
Theorem LinkFromPool_returns_no_path :
  let link dir :=
    LinkFromPool sample.md5 sample.fs sample.flat dir sample.pool
                 sample.hello sample.hello_sum false (sample.remote [] []) in
  (link "pool/main/h/hello").1 = Return None
  /\ (link "pool/contrib/h/hello").1 = Return None
  /\ swift.stored "repo" "pool/main/h/hello/hello_1.0_amd64.deb" (link "pool/main/h/hello").2
     = Some (sample.object "hello 1.0")
  /\ swift.stored "repo" "pool/contrib/h/hello/hello_1.0_amd64.deb"
       (link "pool/contrib/h/hello").2
     = Some (sample.object "hello 1.0").
Proof. repeat split; vm_compute; reflexivity. Qed.

(** C2, the claim at a concrete input.  The destination holds the first
    build of the package and the rebuilt one is linked without [force]:
    the call fails, and the message of its error contains neither of
    the two checksums. *)
Lemma LinkFromPool_conflict_names_no_hash :
  let message :=
    "error putting file to pool/main/h/hello/hello_1.0_amd64.deb: file already exists and is different: Swift: https://auth.example.org/v1.0 aptly repo " in
  (LinkFromPool sample.md5 sample.fs sample.flat "pool/main/h/hello" sample.pool
                sample.rebuilt sample.rebuilt_sum false (sample.remote sample.one [])).1
  = Return (Some (Errorf message))
  /\ strings.Contains message sample.hello_sum = false
  /\ strings.Contains message sample.rebuilt_sum = false.
Proof. repeat split; vm_compute; reflexivity. Qed.

Lemma LinkFromPool_conflict_witness :
  let s := sample.remote sample.one [] in
  let poolPath := "pool/main/h/hello/hello_1.0_amd64.deb" in
  (exists s1,
     LinkFromPool sample.md5 sample.fs sample.flat "pool/main/h/hello" sample.pool
                  sample.rebuilt sample.rebuilt_sum false s
     = (Return (Some (Errorf ("error putting file to " ++ poolPath
                              ++ ": file already exists and is different: "
                              ++ PublishedStorage_String sample.flat))), s1)
     /\ swift.containers s1 = swift.containers s
     /\ swift.log s1 = (swift.log s ++ [swift.HEAD "repo" poolPath])%list)
  /\ (forall contents,
        sample.fs !! sample.rebuilt = Some contents ->
        sample.md5 contents = sample.rebuilt_sum ->
        exists s2,
          LinkFromPool sample.md5 sample.fs sample.flat "pool/main/h/hello" sample.pool
                       sample.rebuilt sample.rebuilt_sum true s = (Return None, s2)
          /\ swift.stored "repo" poolPath s2
             = Some {| swift.etag := sample.rebuilt_sum; swift.body := contents |}
          /\ forall c n, (c, n) <> ("repo", poolPath) ->
                         swift.stored c n s2 = swift.stored c n s).
Proof.
  intros s poolPath.
  apply (LinkFromPool_conflict sample.md5 sample.fs sample.flat "pool/main/h/hello"
           "/var/aptly/pool" sample.rebuilt sample.rebuilt_sum s (sample.object "hello 1.0")).
  - vm_compute. reflexivity.
  - vm_compute. discriminate.
  - apply Forall_nil_2.
Defined.

Lemma LinkFromPool_idempotent_witness :
  let first :=
    LinkFromPool sample.md5 sample.fs sample.flat "pool/main/h/hello" sample.pool
                 sample.hello sample.hello_sum false (sample.remote [] []) in
  first.1 = Return None
  /\ exists s2,
       LinkFromPool sample.md5 sample.fs sample.flat "pool/main/h/hello" sample.pool
                    sample.hello sample.hello_sum false first.2 = (Return None, s2)
       /\ swift.containers s2 = swift.containers first.2
       /\ swift.log s2
          = (swift.log first.2
             ++ [swift.HEAD "repo" "pool/main/h/hello/hello_1.0_amd64.deb"])%list.
Proof.
  intros first. split; [vm_compute; reflexivity|].
  apply (LinkFromPool_idempotent sample.md5 sample.fs sample.flat "pool/main/h/hello"
           "/var/aptly/pool" sample.hello sample.hello_sum false
           (sample.remote [] []) first.2).
  - intros contents Hfile.
    assert (contents = "hello 1.0") as -> by (vm_compute in Hfile; congruence).
    vm_compute. reflexivity.
  - vm_compute. reflexivity.
  - apply Forall_nil_2.
Defined.

Lemma LinkFromPool_probe_error_witness :
  let s := sample.remote sample.one [Some swift.TimeoutError] in
  let poolPath := "pool/main/h/hello/hello_1.0_amd64.deb" in
  LinkFromPool sample.md5 sample.fs sample.flat "pool/main/h/hello" sample.pool
               sample.rebuilt sample.rebuilt_sum true s
  = (Return (Some (Errorf ("error getting information about " ++ poolPath ++ " from "
                           ++ PublishedStorage_String sample.flat ++ ": "
                           ++ swift.Text swift.TimeoutError))),
     swift.sent (swift.HEAD "repo" poolPath) s)
  /\ swift.containers (swift.sent (swift.HEAD "repo" poolPath) s) = swift.containers s
  /\ swift.log (swift.sent (swift.HEAD "repo" poolPath) s)
     = (swift.log s ++ [swift.HEAD "repo" poolPath])%list.
Proof.
  intros s poolPath.
  apply (LinkFromPool_probe_error sample.md5 sample.fs sample.flat "pool/main/h/hello"
           "/var/aptly/pool" sample.rebuilt sample.rebuilt_sum true s
           (swift.sent (swift.HEAD "repo" poolPath) s) swift.TimeoutError).
  - vm_compute. reflexivity.
  - discriminate.
Defined.

(** C5, the claim at a concrete input.  Removing a path at which the
    container holds nothing is an error. *)
Lemma Remove_absent_fails :
  (Remove sample.flat "pool/missing.deb" (sample.remote sample.one [])).1
  = Some (Errorf "error deleting pool/missing.deb from Swift: https://auth.example.org/v1.0 aptly repo : Object Not Found").
Proof. vm_compute. reflexivity. Qed.

Lemma Remove_exactly_one_witness :
  let s := sample.remote sample.two [] in
  exists s',
    Remove sample.flat "pool/a.deb" s = (None, s')
    /\ swift.stored "repo" "pool/a.deb" s' = None
    /\ swift.stored "repo" "pool/b.deb" s' = swift.stored "repo" "pool/b.deb" s.
Proof.
  intros s.
  destruct (Remove_exactly_one sample.flat "pool/a.deb" s) as [Hpresent _].
  - apply Forall_nil_2.
  - destruct Hpresent as (s' & Hremove & Hgone & Hothers).
    + vm_compute. eauto.
    + exists s'. split; [exact Hremove|]. split; [exact Hgone|].
      apply Hothers. discriminate.
Defined.

(** C6, the claim at a concrete input.  The container holds two
    packages and the deletion of the first one runs into a timeout:
    [RemoveDirs] returns that error having sent the listing and one
    deletion; no deletion of the second package was requested, and the
    package is still there. *)
Lemma RemoveDirs_leaves_rest_untried :
  let s := sample.remote sample.two [None; Some swift.TimeoutError] in
  let removed := RemoveDirs sample.flat "pool" no_Progress s in
  removed.1
  = Some (Errorf "error deleting pool/a.deb from Swift: https://auth.example.org/v1.0 aptly repo : Timeout when reading or writing data")
  /\ swift.log removed.2 = [swift.LIST "repo"; swift.DELETE "repo" "pool/a.deb"]
  /\ (swift.DELETE "repo" "pool/b.deb" ∉ swift.log removed.2)
  /\ swift.stored "repo" "pool/b.deb" removed.2 = Some (sample.object "hello 1.0 rebuilt").
Proof.
  intros s removed.
  assert (Hlog : swift.log removed.2 = [swift.LIST "repo"; swift.DELETE "repo" "pool/a.deb"])
    by (vm_compute; reflexivity).
  split; [vm_compute; reflexivity|]. split; [exact Hlog|].
  split; [|vm_compute; reflexivity].
  rewrite Hlog. intros Hin.
  apply elem_of_cons in Hin as [Hin|Hin]; [discriminate Hin|].
  apply list_elem_of_singleton in Hin. discriminate Hin.
Qed.

Lemma RemoveDirs_stops_at_first_failure_witness :
  let s := sample.remote sample.three [None; None; Some swift.TimeoutError] in
  let s0 := (Filelist sample.flat "pool" s).2 in
  let s1 := (RemoveDirs_range sample.flat ["pool/a.deb"] s0).2 in
  let failed := Remove sample.flat "pool/b.deb" s1 in
  RemoveDirs sample.flat "pool" no_Progress s
  = (Some (Errorf "error deleting pool/b.deb from Swift: https://auth.example.org/v1.0 aptly repo : Timeout when reading or writing data"),
     failed.2)
  /\ swift.containers failed.2 = swift.containers s1
  /\ swift.log failed.2
     = [swift.LIST "repo"; swift.DELETE "repo" "pool/a.deb"; swift.DELETE "repo" "pool/b.deb"].
Proof.
  intros s s0 s1 failed.
  apply (RemoveDirs_stops_at_first_failure sample.flat "pool" no_Progress
           s s0 s1 failed.2 ["pool/a.deb"] ["pool/c.deb"] "pool/b.deb").
  - vm_compute. reflexivity.
  - vm_compute. reflexivity.
  - vm_compute. reflexivity.
Defined.

(** C9, the claim at a concrete input.  A file renamed to its own name
    is copied onto itself and then deleted: [RenameFile] returns [nil]
    and the file is at [newName] no more. *)
Lemma RenameFile_onto_itself_loses_file :
  let name := "pool/main/h/hello/hello_1.0_amd64.deb" in
  let s := sample.remote sample.one [] in
  swift.stored "repo" name s = Some (sample.object "hello 1.0")
  /\ (RenameFile sample.flat name name s).1 = None
  /\ swift.stored "repo" name (RenameFile sample.flat name name s).2 = None.
Proof. repeat split; vm_compute; reflexivity. Qed.

Lemma RenameFile_keeps_file_witness :
  let oldName := "pool/main/h/hello/hello_1.0_amd64.deb" in
  let newName := "pool/main/h/hello/hello_1.0_all.deb" in
  let s := sample.remote sample.one [] in
  let o := sample.object "hello 1.0" in
  Forall (fun st => swift.stored "repo" oldName st = Some o
                    \/ swift.stored "repo" newName st = Some o)
         (RenameFile_states sample.flat oldName newName s)
  /\ last (RenameFile_states sample.flat oldName newName s)
     = Some (RenameFile sample.flat oldName newName s).2
  /\ (forall s', RenameFile sample.flat oldName newName s = (None, s') ->
                 swift.stored "repo" newName s' = Some o
                 /\ swift.stored "repo" oldName s' = None)
  /\ (swift.clear 2 s -> (RenameFile sample.flat oldName newName s).1 = None).
Proof.
  intros oldName newName s o.
  apply (RenameFile_keeps_file sample.flat oldName newName s o).
  - vm_compute. discriminate.
  - vm_compute. reflexivity.
Defined.

(** * Further properties of the methods *)

(** ** NewPublishedStorage *)

(** X1. [NewPublishedStorage] never fails and keeps the container it is
    given.  The prefix of the storage it builds is never [/]: that
    prefix stands for the root of the container, so that asking for [/]
    and asking for the empty prefix build the same storage; every other
    prefix is kept as it is. *)
Theorem NewPublishedStorage_prefix (authUrl userName apiKey container' prefix' : string) :
  let built := NewPublishedStorage authUrl userName apiKey container' prefix' in
  built.2 = None
  /\ built.1.(container) = container'
  /\ built.1.(prefix) <> "/"
  /\ (prefix' <> "/" -> built.1.(prefix) = prefix')
  /\ NewPublishedStorage authUrl userName apiKey container' "/"
     = NewPublishedStorage authUrl userName apiKey container' "".
Proof.
  unfold NewPublishedStorage. simpl.
  destruct (String.eqb_spec prefix' "/") as [->|Hne]; simpl.
  - repeat split; done.
  - repeat split; done.
Qed.

(** ** PutFile *)

Section putting.

Variable md5 : string -> string.
Variable fs : gmap string string.

Lemma PutFile_failed storage path sourceFilename s e s' :
  PutFile md5 fs storage path sourceFilename s = (Some e, s') ->
  swift.containers s' = swift.containers s.
Proof.
  rewrite PutFile_eq. simpl.
  destruct (fs !! sourceFilename); [|by intros [= _ <-]].
  destruct (swift.next_fault s); [by intros [= _ <-]|].
  destruct (swift.containers s !! storage.(container)); [congruence|].
  by intros [= _ <-].
Qed.

(** X2. When the source file cannot be opened, [PutFile] returns the
    error of [os.Open] as it is and has not talked to the store: the
    state of the remote side, request log included, is the one it was
    given. *)
Theorem PutFile_missing_source
    (storage : PublishedStorage) (path sourceFilename : string) (s : swift.Remote) :
  fs !! sourceFilename = None ->
  PutFile md5 fs storage path sourceFilename s
  = (Some (PathError "open" sourceFilename "no such file or directory"), s).
Proof. intros Hfile. rewrite PutFile_eq. simpl. by rewrite Hfile. Qed.

(** X3. When the source file is readable, the container exists and no
    transport fault hits the request, [PutFile] succeeds with a single
    upload: whatever the key of the path held before, it now holds the
    contents of the file with their digest, and every other object is
    unchanged. *)
Theorem PutFile_overwrites
    (storage : PublishedStorage) (path sourceFilename contents : string)
    (s : swift.Remote) :
  let key := filepath.Join storage.(prefix) path in
  fs !! sourceFilename = Some contents ->
  is_Some (swift.containers s !! storage.(container)) ->
  swift.clear 1 s ->
  exists s',
    PutFile md5 fs storage path sourceFilename s = (None, s')
    /\ swift.stored storage.(container) key s'
       = Some {| swift.etag := md5 contents; swift.body := contents |}
    /\ (forall c n, (c, n) <> (storage.(container), key) ->
                    swift.stored c n s' = swift.stored c n s)
    /\ swift.log s' = (swift.log s ++ [swift.PUT storage.(container) key])%list.
Proof.
  intros key Hfile [objs Hc] Hclear.
  rewrite PutFile_eq. simpl. fold key.
  rewrite Hfile, (clear_next_fault _ _ Hclear), Hc.
  eexists. split; [reflexivity|]. split; [apply stored_insert|]. split; [|done].
  intros c n Hne. by apply (stored_insert_ne _ _ _ _ _ _ _ s).
Qed.

(** X5. [PutFile] is idempotent on the objects: once it has succeeded,
    the same call again leaves every container as the first call left
    it, whether the second call succeeds or fails. *)
Theorem PutFile_twice
    (storage : PublishedStorage) (path sourceFilename : string) (s s1 : swift.Remote) :
  PutFile md5 fs storage path sourceFilename s = (None, s1) ->
  swift.containers (PutFile md5 fs storage path sourceFilename s1).2
  = swift.containers s1.
Proof.
  intros Hfirst.
  destruct (PutFile md5 fs storage path sourceFilename s1) as [[e|] s2] eqn:Hsecond.
  { simpl. by eapply PutFile_failed. }
  revert Hfirst Hsecond. rewrite !PutFile_eq. simpl.
  destruct (fs !! sourceFilename) as [contents|]; [|congruence].
  destruct (swift.next_fault s); [congruence|].
  destruct (swift.containers s !! storage.(container)) as [objs|]; [|congruence].
  intros [= <-]. simpl.
  destruct (swift.next_fault _); [congruence|].
  rewrite lookup_insert_eq. intros [= <-]. simpl.
  by rewrite !insert_insert_eq.
Qed.

(** X6. Putting a file at a path that holds nothing and then removing
    the path brings every container back to what it was. *)
Theorem PutFile_then_Remove
    (storage : PublishedStorage) (path sourceFilename : string)
    (s s1 s2 : swift.Remote) :
  swift.stored storage.(container) (filepath.Join storage.(prefix) path) s = None ->
  PutFile md5 fs storage path sourceFilename s = (None, s1) ->
  Remove storage path s1 = (None, s2) ->
  swift.containers s2 = swift.containers s.
Proof.
  intros Habsent. rewrite PutFile_eq. simpl.
  destruct (fs !! sourceFilename) as [contents|]; [|congruence].
  destruct (swift.next_fault s); [congruence|].
  destruct (swift.containers s !! storage.(container)) as [objs|] eqn:Hc; [|congruence].
  intros [= <-].
  unfold Remove, swift.bind, swift.ret. rewrite ObjectDelete_eq. simpl.
  destruct (swift.next_fault _); [congruence|].
  rewrite lookup_insert_eq, lookup_insert_eq.
  intros [= <-]. simpl.
  unfold swift.stored in Habsent. rewrite Hc in Habsent. simpl in Habsent.
  rewrite insert_insert_eq, delete_insert_eq, (delete_id _ _ Habsent).
  by apply insert_id.
Qed.

End putting.

(** ** Remove, Filelist and RemoveDirs *)

Lemma Remove_eq storage path s :
  Remove storage path s =
  let key := filepath.Join storage.(prefix) path in
  let wrap e :=
    Some (Errorf ("error deleting " ++ path ++ " from "
                  ++ PublishedStorage_String storage ++ ": " ++ swift.Text e)) in
  match swift.next_fault s with
  | Some e => (wrap e, swift.sent (swift.DELETE storage.(container) key) s)
  | None =>
      match swift.containers s !! storage.(container) with
      | None =>
          (wrap swift.ObjectNotFound, swift.sent (swift.DELETE storage.(container) key) s)
      | Some objs =>
          match objs !! key with
          | None =>
              (wrap swift.ObjectNotFound,
               swift.sent (swift.DELETE storage.(container) key) s)
          | Some _ =>
              (None,
               swift.set_containers
                 (<[storage.(container) := delete key objs]> (swift.containers s))
                 (swift.sent (swift.DELETE storage.(container) key) s))
          end
      end
  end.
Proof.
  unfold Remove, swift.bind, swift.ret. rewrite ObjectDelete_eq. simpl.
  destruct (swift.next_fault s); [done|].
  destruct (swift.containers s !! storage.(container)) as [objs|]; [|done].
  by destruct (objs !! filepath.Join storage.(prefix) path).
Qed.

Lemma Remove_frame storage path s c n :
  (c, n) <> (storage.(container), filepath.Join storage.(prefix) path) ->
  swift.stored c n (Remove storage path s).2 = swift.stored c n s.
Proof.
  intros Hne. rewrite Remove_eq. simpl.
  destruct (swift.next_fault s); [done|].
  destruct (swift.containers s !! storage.(container)) as [objs|] eqn:Hc; [|done].
  destruct (objs !! filepath.Join storage.(prefix) path); [|done].
  by apply (stored_delete_ne _ _ _ _ _ _ s).
Qed.

Lemma Remove_keeps_absent storage path s c n :
  swift.stored c n s = None ->
  swift.stored c n (Remove storage path s).2 = None.
Proof.
  intros Habsent.
  destruct (decide ((c, n) = (storage.(container), filepath.Join storage.(prefix) path)))
    as [[= -> ->]|Hne]; [|by rewrite Remove_frame].
  rewrite Remove_eq. simpl.
  destruct (swift.next_fault s); [done|].
  destruct (swift.containers s !! storage.(container)) as [objs|] eqn:Hc; [|done].
  destruct (objs !! filepath.Join storage.(prefix) path); [|done].
  apply stored_delete.
Qed.

(** X7. Whatever its outcome, [Remove] sends exactly one request, the
    deletion of the key of its path, and never touches an object under
    another key. *)
Theorem Remove_touches_one_key
    (storage : PublishedStorage) (path : string) (s : swift.Remote) :
  let key := filepath.Join storage.(prefix) path in
  let removed := Remove storage path s in
  swift.log removed.2 = (swift.log s ++ [swift.DELETE storage.(container) key])%list
  /\ (forall c n, (c, n) <> (storage.(container), key) ->
                  swift.stored c n removed.2 = swift.stored c n s).
Proof.
  intros key removed. split; [apply Remove_log|].
  intros c n Hne. by apply Remove_frame.
Qed.

(** X8. The prefix given to [Filelist] has no effect on what it lists:
    for any two prefixes the calls leave the same state, which has the
    objects of the state before and one listing request more, and a
    list returned for one prefix is the list returned for the other. *)
Theorem Filelist_ignores_prefix
    (storage : PublishedStorage) (prefix1 prefix2 : string) (s : swift.Remote) :
  (Filelist storage prefix1 s).2 = (Filelist storage prefix2 s).2
  /\ swift.containers (Filelist storage prefix1 s).2 = swift.containers s
  /\ swift.log (Filelist storage prefix1 s).2
     = (swift.log s ++ [swift.LIST storage.(container)])%list
  /\ forall filelist,
       (Filelist storage prefix1 s).1 = inr filelist ->
       (Filelist storage prefix2 s).1 = inr filelist.
Proof.
  rewrite !Filelist_eq. simpl. repeat split.
  destruct (swift.next_fault s); [done|].
  by destruct (swift.containers s !! storage.(container)).
Qed.

Lemma listing_NoDup (objs : gmap string swift.Stored) :
  NoDup (swift.Name <$> swift.listing objs).
Proof.
  unfold swift.listing. rewrite <- list_fmap_compose.
  rewrite (list_fmap_ext _ fst) by (by intros _ [n o] _).
  rewrite merge_sort_Permutation. apply NoDup_fst_map_to_list.
Qed.

Lemma listing_length (objs : gmap string swift.Stored) :
  length (swift.Name <$> swift.listing objs) = size objs.
Proof.
  unfold swift.listing. rewrite !length_fmap.
  rewrite merge_sort_Permutation. apply length_map_to_list.
Qed.

(** X9. A list that [Filelist] returns names every object of the
    storage's container under its full key, each exactly once; the
    root prefix of the storage is not taken off the names. *)
Theorem Filelist_names_each_object_once
    (storage : PublishedStorage) (prefix_ : string) (s s' : swift.Remote)
    (filelist : list string) :
  Filelist storage prefix_ s = (inr filelist, s') ->
  NoDup filelist
  /\ forall n, n ∈ filelist <-> is_Some (swift.stored storage.(container) n s).
Proof.
  rewrite Filelist_eq. unfold swift.stored.
  destruct (swift.next_fault s); [congruence|].
  destruct (swift.containers s !! storage.(container)) as [objs|]; [|congruence].
  intros [= <- _]. split; [apply listing_NoDup|].
  intros n. simpl. apply listing_names.
Qed.

(** X10. When the listing fails, [RemoveDirs] returns the error of
    [Filelist] and has requested no deletion: the listing is the only
    request sent, and the objects are unchanged. *)
Theorem RemoveDirs_listing_failure
    (storage : PublishedStorage) (path : string) (progress : Progress)
    (s s' : swift.Remote) (e : error) :
  Filelist storage path s = (inl e, s') ->
  RemoveDirs storage path progress s = (Some e, s')
  /\ swift.containers s' = swift.containers s
  /\ swift.log s' = (swift.log s ++ [swift.LIST storage.(container)])%list.
Proof.
  intros Hlist. split.
  - unfold RemoveDirs, swift.bind. by rewrite Hlist.
  - rewrite Filelist_eq in Hlist. by injection Hlist as _ <-.
Qed.

Lemma RemoveDirs_range_keeps_absent storage filelist s c n :
  swift.stored c n s = None ->
  swift.stored c n (RemoveDirs_range storage filelist s).2 = None.
Proof.
  revert s. induction filelist as [|f filelist IH]; intros s Habsent; [done|].
  simpl. unfold swift.bind, swift.ret.
  pose proof (Remove_keeps_absent storage f s c n Habsent) as Hstep.
  destruct (Remove storage f s) as [[e|] s1]; [done|]. by apply IH.
Qed.

Lemma RemoveDirs_range_gone storage filelist s s' :
  RemoveDirs_range storage filelist s = (None, s') ->
  forall f, f ∈ filelist ->
            swift.stored storage.(container) (filepath.Join storage.(prefix) f) s' = None.
Proof.
  revert s. induction filelist as [|f0 filelist IH]; intros s Hrange f Hin.
  { by apply elem_of_nil in Hin. }
  simpl in Hrange. unfold swift.bind, swift.ret in Hrange.
  destruct (Remove storage f0 s) as [[e|] s1] eqn:Hremove; [congruence|].
  apply elem_of_cons in Hin as [->|Hin]; [|by eapply IH].
  pose proof (RemoveDirs_range_keeps_absent storage filelist s1 _ _
                (Remove_done _ _ _ _ Hremove)) as Hkept.
  by rewrite Hrange in Hkept.
Qed.

(** X11. When [RemoveDirs] returns [nil], the listing succeeded, the
    requests sent after it are the deletions of the keys of all listed
    entries, in the order of the list, and none of these keys holds an
    object any more. *)
Theorem RemoveDirs_success
    (storage : PublishedStorage) (path : string) (progress : Progress)
    (s s' : swift.Remote) :
  RemoveDirs storage path progress s = (None, s') ->
  exists filelist,
    (Filelist storage path s).1 = inr filelist
    /\ swift.log s'
       = (swift.log s
          ++ swift.LIST storage.(container)
             :: ((fun f => swift.DELETE storage.(container)
                             (filepath.Join storage.(prefix) f)) <$> filelist))%list
    /\ forall f, f ∈ filelist ->
                 swift.stored storage.(container)
                   (filepath.Join storage.(prefix) f) s' = None.
Proof.
  unfold RemoveDirs, swift.bind, swift.ret.
  pose proof (Filelist_eq storage path s) as Hlist.
  destruct (Filelist storage path s) as [[e|filelist] s0]; [congruence|].
  intros Hrange. exists filelist. split; [done|]. split.
  - rewrite (RemoveDirs_range_log _ _ _ _ Hrange).
    injection Hlist as _ ->. simpl. by rewrite <- app_assoc.
  - by apply (RemoveDirs_range_gone _ _ _ _ Hrange).
Qed.

Lemma lookup_deleted (objs : gmap string swift.Stored) (names : list string) (k : string) :
  foldl (fun m n => delete n m) objs names !! k
  = if decide (k ∈ names) then None else objs !! k.
Proof.
  revert objs. induction names as [|n names IH]; intros objs.
  - rewrite decide_False; [done|]. apply not_elem_of_nil.
  - cbn [foldl]. rewrite IH.
    destruct (decide (k ∈ names)) as [Hin|Hnin].
    + rewrite decide_True; [done|]. apply elem_of_cons. by right.
    + destruct (decide (k = n)) as [->|Hne].
      * rewrite decide_True; [|apply elem_of_cons; by left]. apply lookup_delete_eq.
      * rewrite decide_False; [by apply lookup_delete_ne|].
        rewrite elem_of_cons. by intros [?|?].
Qed.

Lemma RemoveDirs_range_deletes storage names s objs :
  swift.containers s !! storage.(container) = Some objs ->
  NoDup names ->
  (forall n, n ∈ names -> is_Some (objs !! n) /\ filepath.Join storage.(prefix) n = n) ->
  swift.clear (length names) s ->
  exists s',
    RemoveDirs_range storage names s = (None, s')
    /\ swift.containers s'
       = <[storage.(container) := foldl (fun m n => delete n m) objs names]>
           (swift.containers s).
Proof.
  revert s objs. induction names as [|n names IH]; intros s objs Hc Hnodup Hnames Hclear.
  { exists s. split; [done|]. simpl. by rewrite insert_id. }
  apply NoDup_cons in Hnodup as [Hfresh Hnodup].
  destruct (Hnames n) as [[o Ho] Hkey]; [by apply elem_of_cons; left|].
  simpl. unfold swift.bind, swift.ret.
  rewrite Remove_eq. simpl. rewrite Hkey.
  rewrite (clear_next_fault _ _ Hclear), Hc, Ho.
  set (s1 := swift.set_containers _ _).
  destruct (IH s1 (delete n objs)) as (s' & Hrange & Hobjs).
  - unfold s1. simpl. apply lookup_insert_eq.
  - done.
  - intros m Hin. destruct (Hnames m) as [Hm Hmkey]; [by apply elem_of_cons; right|].
    split; [|done]. rewrite lookup_delete_ne; [done|]. by intros ->.
  - unfold s1. apply (clear_sent _ (swift.DELETE storage.(container) n)) in Hclear.
    exact Hclear.
  - exists s'. split; [done|]. rewrite Hobjs. unfold s1. simpl.
    by rewrite insert_insert_eq.
Qed.

(** X12. On a storage with the empty root prefix whose container holds
    objects under clean names only, [RemoveDirs] removes every object
    of the container, whatever the path it is given: when no transport
    fault hits its requests it returns [nil] and leaves the container
    empty, the other containers unchanged. *)
Theorem RemoveDirs_empties_container
    (storage : PublishedStorage) (path : string) (progress : Progress)
    (s : swift.Remote) (objs : gmap string swift.Stored) :
  storage.(prefix) = "" ->
  swift.containers s !! storage.(container) = Some objs ->
  (forall n, is_Some (objs !! n) -> filepath.Join "" n = n) ->
  swift.clear (S (size objs)) s ->
  exists s',
    RemoveDirs storage path progress s = (None, s')
    /\ swift.containers s' = <[storage.(container) := ∅]> (swift.containers s).
Proof.
  intros Hprefix Hc Hclean Hclear.
  unfold RemoveDirs, swift.bind. rewrite Filelist_eq.
  rewrite (clear_next_fault _ _ Hclear), Hc.
  set (names := swift.Name <$> swift.listing objs).
  set (s0 := swift.sent _ s).
  destruct (RemoveDirs_range_deletes storage names s0 objs) as (s' & Hrange & Hobjs).
  - done.
  - apply listing_NoDup.
  - intros n Hin. apply listing_names in Hin. split; [done|].
    rewrite Hprefix. by apply Hclean.
  - unfold names. rewrite listing_length. by apply clear_sent.
  - exists s'. split; [done|]. rewrite Hobjs. simpl. f_equal.
    apply map_eq. intros k. rewrite lookup_deleted, lookup_empty.
    case_decide as Hin; [done|].
    destruct (objs !! k) as [o|] eqn:Hk; [|done].
    exfalso. apply Hin. apply listing_names. by rewrite Hk.
Qed.

(** X13. [RemoveDirs] hands the listed names, which are full keys, to
    [Remove], which joins the root prefix to them once more.  So when
    the first listed name, joined to the root prefix, is the key of no
    object, [RemoveDirs] fails on that first entry with the store's
    [Object Not Found] and deletes nothing. *)
Theorem RemoveDirs_joins_prefix_again
    (storage : PublishedStorage) (path : string) (progress : Progress)
    (s : swift.Remote) (first : string) (rest : list string) :
  (Filelist storage path s).1 = inr (first :: rest) ->
  swift.stored storage.(container) (filepath.Join storage.(prefix) first) s = None ->
  swift.clear 2 s ->
  exists s',
    RemoveDirs storage path progress s
    = (Some (Errorf ("error deleting " ++ first ++ " from "
                     ++ PublishedStorage_String storage ++ ": Object Not Found")), s')
    /\ swift.containers s' = swift.containers s
    /\ swift.log s'
       = (swift.log s
          ++ [swift.LIST storage.(container);
              swift.DELETE storage.(container)
                (filepath.Join storage.(prefix) first)])%list.
Proof.
  intros Hlist Habsent Hclear.
  unfold RemoveDirs, swift.bind.
  pose proof (Filelist_eq storage path s) as Heq.
  destruct (Filelist storage path s) as [r s0]. simpl in Hlist. subst r.
  injection Heq as _ ->. simpl. unfold swift.bind, swift.ret.
  rewrite Remove_eq. simpl.
  apply (clear_sent 1 (swift.LIST storage.(container))) in Hclear.
  rewrite (clear_next_fault _ _ Hclear).
  unfold swift.stored in Habsent.
  destruct (swift.containers s !! storage.(container)) as [objs|]; simpl in Habsent.
  - rewrite Habsent. eexists. split; [reflexivity|]. split; [done|].
    simpl. by rewrite <- app_assoc.
  - eexists. split; [reflexivity|]. split; [done|].
    simpl. by rewrite <- app_assoc.
Qed.

(** ** RenameFile *)

Lemma RenameFile_eq storage oldName newName s :
  RenameFile storage oldName newName s =
  let c := storage.(container) in
  let src := filepath.Join storage.(prefix) oldName in
  let dst := filepath.Join storage.(prefix) newName in
  let s0 := swift.sent (swift.COPY c src c dst) s in
  match swift.next_fault s with
  | Some e => (Some (SwiftError e), s0)
  | None =>
      match swift.stored c src s, swift.containers s !! c with
      | Some o, Some objs =>
          let s1 := swift.set_containers (<[c := <[dst := o]> objs]> (swift.containers s)) s0 in
          match swift.next_fault s0 with
          | Some e => (Some (SwiftError e), swift.sent (swift.DELETE c src) s1)
          | None =>
              match <[dst := o]> objs !! src with
              | Some _ =>
                  (None,
                   swift.set_containers
                     (<[c := delete src (<[dst := o]> objs)]> (swift.containers s1))
                     (swift.sent (swift.DELETE c src) s1))
              | None => (Some (SwiftError swift.ObjectNotFound), swift.sent (swift.DELETE c src) s1)
              end
          end
      | _, _ => (Some (SwiftError swift.ObjectNotFound), s0)
      end
  end.
Proof.
  unfold RenameFile, swift.ObjectMove, swift.bind, swift.ret.
  rewrite ObjectCopy_eq. simpl.
  destruct (swift.next_fault s); [done|].
  destruct (swift.stored _ _ s) as [o|]; [|done].
  destruct (swift.containers s !! storage.(container)) as [objs|]; [|done].
  rewrite ObjectDelete_eq. simpl.
  change (swift.next_fault (swift.set_containers ?cs ?s')) with (swift.next_fault s').
  destruct (swift.next_fault _); [done|].
  rewrite lookup_insert_eq.
  by destruct (<[_ := o]> objs !! _).
Qed.

(** X14. When nothing is stored at [oldName], [RenameFile] returns the
    store's [ObjectNotFound] as it is, not wrapped in a message; the
    copy is the only request it has sent, and no object has changed. *)
Theorem RenameFile_missing_source
    (storage : PublishedStorage) (oldName newName : string) (s : swift.Remote) :
  let src := filepath.Join storage.(prefix) oldName in
  let dst := filepath.Join storage.(prefix) newName in
  swift.stored storage.(container) src s = None ->
  swift.clear 1 s ->
  exists s',
    RenameFile storage oldName newName s = (Some (SwiftError swift.ObjectNotFound), s')
    /\ swift.containers s' = swift.containers s
    /\ swift.log s'
       = (swift.log s ++ [swift.COPY storage.(container) src storage.(container) dst])%list.
Proof.
  intros src dst Habsent Hclear.
  rewrite RenameFile_eq. simpl. fold src dst.
  rewrite (clear_next_fault _ _ Hclear), Habsent. eauto.
Qed.

(** X15. A [RenameFile] that fails may have written the destination
    already.  For names with different keys and a file stored at
    [oldName]: when the copy goes through and the deletion of the
    source returns an error, [RenameFile] returns that error after its
    two requests, and the file is stored at [newName]. *)
Theorem RenameFile_error_after_copy
    (storage : PublishedStorage) (oldName newName : string) (s : swift.Remote)
    (o : swift.Stored) (e : swift.Error) (later : list (option swift.Error)) :
  let src := filepath.Join storage.(prefix) oldName in
  let dst := filepath.Join storage.(prefix) newName in
  src <> dst ->
  swift.stored storage.(container) src s = Some o ->
  swift.faults s = None :: Some e :: later ->
  exists s',
    RenameFile storage oldName newName s = (Some (SwiftError e), s')
    /\ swift.stored storage.(container) dst s' = Some o
    /\ swift.log s'
       = (swift.log s
          ++ [swift.COPY storage.(container) src storage.(container) dst;
              swift.DELETE storage.(container) src])%list.
Proof.
  intros src dst Hne Hsrc Hfaults.
  destruct (stored_container _ _ _ _ Hsrc) as (objs & Hc & Ho).
  rewrite RenameFile_eq. simpl. fold src dst.
  unfold swift.next_fault. simpl. rewrite Hfaults. simpl.
  rewrite Hsrc, Hc.
  eexists. split; [reflexivity|]. split.
  - unfold swift.stored. simpl. rewrite lookup_insert_eq. simpl.
    apply lookup_insert_eq.
  - simpl. by rewrite <- app_assoc.
Qed.

(** X16. Whatever its outcome, [RenameFile] leaves every object under a
    key other than those of its two names as it was, and sends the copy
    request, followed by at most the deletion of the source. *)
Theorem RenameFile_touches_two_keys
    (storage : PublishedStorage) (oldName newName : string) (s : swift.Remote) :
  let c := storage.(container) in
  let src := filepath.Join storage.(prefix) oldName in
  let dst := filepath.Join storage.(prefix) newName in
  let renamed := RenameFile storage oldName newName s in
  (forall c' n, (c', n) <> (c, src) -> (c', n) <> (c, dst) ->
                swift.stored c' n renamed.2 = swift.stored c' n s)
  /\ (swift.log renamed.2 = (swift.log s ++ [swift.COPY c src c dst])%list
      \/ swift.log renamed.2
         = (swift.log s ++ [swift.COPY c src c dst; swift.DELETE c src])%list).
Proof.
  intros c src dst renamed. unfold renamed.
  rewrite RenameFile_eq. simpl. fold c src dst.
  destruct (swift.next_fault s); [split; [done|by left]|].
  destruct (swift.stored c src s) as [o|] eqn:Hsrc; [|split; [done|by left]].
  destruct (swift.containers s !! c) as [objs|] eqn:Hc; [|split; [done|by left]].
  assert (Hcopy : forall c' n, (c', n) <> (c, dst) ->
            swift.stored c' n
              (swift.set_containers (<[c := <[dst := o]> objs]> (swift.containers s))
                 (swift.sent (swift.COPY c src c dst) s))
            = swift.stored c' n s).
  { intros c' n Hne. by apply (stored_insert_ne _ _ _ _ _ _ _ s). }
  destruct (swift.next_fault _).
  { split; [|right; simpl; by rewrite <- app_assoc].
    intros c' n _ Hdst. by apply Hcopy. }
  destruct (<[dst := o]> objs !! src).
  - split; [|right; simpl; by rewrite <- app_assoc].
    intros c' n Hsrc' Hdst. unfold swift.stored. simpl.
    destruct (decide (c' = c)) as [->|Hcc].
    + rewrite lookup_insert_eq, Hc. simpl.
      rewrite lookup_delete_ne, lookup_insert_ne by congruence. done.
    + by rewrite !lookup_insert_ne.
  - split; [|right; simpl; by rewrite <- app_assoc].
    intros c' n _ Hdst. by apply Hcopy.
Qed.

Lemma RenameFile_done storage oldName newName s s' :
  RenameFile storage oldName newName s = (None, s') ->
  exists o objs,
    swift.containers s !! storage.(container) = Some objs
    /\ objs !! filepath.Join storage.(prefix) oldName = Some o
    /\ swift.containers s'
       = <[storage.(container) :=
             delete (filepath.Join storage.(prefix) oldName)
                    (<[filepath.Join storage.(prefix) newName := o]> objs)]>
           (swift.containers s).
Proof.
  rewrite RenameFile_eq. simpl.
  destruct (swift.next_fault s); [congruence|].
  destruct (swift.stored _ _ s) as [o|] eqn:Hsrc; [|congruence].
  destruct (stored_container _ _ _ _ Hsrc) as (objs & Hc & Ho).
  rewrite Hc.
  destruct (swift.next_fault _); [congruence|].
  destruct (<[_ := o]> objs !! _); [|congruence].
  intros [= <-]. exists o, objs. split; [done|]. split; [done|].
  simpl. by rewrite insert_insert_eq.
Qed.

(** X17. Renaming a file to a free name and back brings every container
    back to what it was. *)
Theorem RenameFile_there_and_back
    (storage : PublishedStorage) (oldName newName : string) (s s1 s2 : swift.Remote) :
  let src := filepath.Join storage.(prefix) oldName in
  let dst := filepath.Join storage.(prefix) newName in
  src <> dst ->
  swift.stored storage.(container) dst s = None ->
  RenameFile storage oldName newName s = (None, s1) ->
  RenameFile storage newName oldName s1 = (None, s2) ->
  swift.containers s2 = swift.containers s.
Proof.
  intros src dst Hne Hfree Hthere Hback.
  destruct (RenameFile_done _ _ _ _ _ Hthere) as (o & objs & Hc & Ho & Hs1).
  destruct (RenameFile_done _ _ _ _ _ Hback) as (o' & objs1 & Hc1 & Ho' & Hs2).
  fold src dst in Ho, Hs1, Ho', Hs2.
  rewrite Hs1, lookup_insert_eq in Hc1. injection Hc1 as <-.
  rewrite lookup_delete_ne, lookup_insert_eq in Ho' by done. injection Ho' as <-.
  rewrite Hs2, Hs1, insert_insert_eq.
  apply insert_id. rewrite Hc. f_equal.
  unfold swift.stored in Hfree. rewrite Hc in Hfree. simpl in Hfree.
  apply map_eq. intros k.
  destruct (decide (k = dst)) as [->|Hdst]; [by rewrite lookup_delete_eq|].
  rewrite lookup_delete_ne by done.
  destruct (decide (k = src)) as [->|Hsrc']; [by rewrite lookup_insert_eq|].
  rewrite lookup_insert_ne, lookup_delete_ne, lookup_insert_ne by done.
  done.
Qed.

(** ** LinkFromPool *)

Lemma Remove_app (old : ascii) (a b : string) :
  strings.Remove old (a ++ b) = strings.Remove old a ++ strings.Remove old b.
Proof.
  induction a as [|ch a IH]; [done|].
  change (String ch a ++ b) with (String ch (a ++ b)). simpl.
  destruct (Ascii.eqb ch old); [done|]. by rewrite IH.
Qed.

Lemma append_empty (a : string) : a ++ "" = a.
Proof.
  induction a as [|ch a IH]; [done|].
  change (String ch a ++ "") with (String ch (a ++ "")). by rewrite IH.
Qed.

Section linking_further.

Variable md5 : string -> string.
Variable fs : gmap string string.

Lemma PutFile_frame storage path sourceFilename s c n :
  (c, n) <> (storage.(container), filepath.Join storage.(prefix) path) ->
  swift.stored c n (PutFile md5 fs storage path sourceFilename s).2 = swift.stored c n s.
Proof.
  intros Hne. rewrite PutFile_eq. simpl.
  destruct (fs !! sourceFilename); [|done].
  destruct (swift.next_fault s); [done|].
  destruct (swift.containers s !! storage.(container)) as [objs|] eqn:Hc; [|done].
  by apply (stored_insert_ne _ _ _ _ _ _ _ s).
Qed.

Lemma PutFile_log storage path sourceFilename s :
  swift.log (PutFile md5 fs storage path sourceFilename s).2 = swift.log s
  \/ swift.log (PutFile md5 fs storage path sourceFilename s).2
     = (swift.log s
        ++ [swift.PUT storage.(container) (filepath.Join storage.(prefix) path)])%list.
Proof.
  rewrite PutFile_eq. simpl.
  destruct (fs !! sourceFilename); [|by left].
  destruct (swift.next_fault s); [by right|].
  destruct (swift.containers s !! storage.(container)); by right.
Qed.

(** X4. Whatever its outcome, [PutFile] leaves every object under a key
    other than the one of its path as it was, and sends at most one
    request, the upload to that key. *)
Theorem PutFile_touches_one_key
    (storage : PublishedStorage) (path sourceFilename : string) (s : swift.Remote) :
  let key := filepath.Join storage.(prefix) path in
  let put := PutFile md5 fs storage path sourceFilename s in
  (forall c n, (c, n) <> (storage.(container), key) ->
               swift.stored c n put.2 = swift.stored c n s)
  /\ (swift.log put.2 = swift.log s
      \/ swift.log put.2 = (swift.log s ++ [swift.PUT storage.(container) key])%list).
Proof.
  intros key put. split.
  - intros c n Hne. by apply PutFile_frame.
  - apply PutFile_log.
Qed.

(** X18. When the destination holds nothing, the source file is
    readable, the container exists and no transport fault hits the two
    requests, [LinkFromPool] uploads the file, for either value of
    [force]: it returns [nil] after the probe and one upload, the
    destination holds the contents of the file with their digest, and
    every other object is unchanged.  The checksum it was given plays
    no part: what is uploaded is not checked against it. *)
Theorem LinkFromPool_first_publish
    (storage : PublishedStorage)
    (publishedDirectory rootPath sourcePath sourceMD5 contents : string)
    (force : bool) (s : swift.Remote) :
  let poolPath :=
    filepath.Join storage.(prefix)
      (filepath.Join publishedDirectory (filepath.Base sourcePath)) in
  swift.stored storage.(container) poolPath s = None ->
  fs !! sourcePath = Some contents ->
  is_Some (swift.containers s !! storage.(container)) ->
  swift.clear 2 s ->
  exists s',
    LinkFromPool md5 fs storage publishedDirectory (files_PackagePool rootPath)
                 sourcePath sourceMD5 force s = (Return None, s')
    /\ swift.stored storage.(container) poolPath s'
       = Some {| swift.etag := md5 contents; swift.body := contents |}
    /\ (forall c n, (c, n) <> (storage.(container), poolPath) ->
                    swift.stored c n s' = swift.stored c n s)
    /\ swift.log s'
       = (swift.log s ++ [swift.HEAD storage.(container) poolPath;
                          swift.PUT storage.(container) poolPath])%list.
Proof.
  intros poolPath Habsent Hfile [objs Hc] Hclear.
  unfold LinkFromPool, swift.bind, swift.ret. fold poolPath.
  rewrite Object__eq, (clear_next_fault _ _ Hclear), Habsent. simpl.
  rewrite PutFile_eq, Hfile. simpl. fold poolPath.
  apply (clear_sent 1 (swift.HEAD storage.(container) poolPath)) in Hclear.
  rewrite (clear_next_fault _ _ Hclear). simpl. rewrite Hc.
  eexists. split; [reflexivity|]. split; [apply stored_insert|]. split.
  - intros c n Hne. by apply (stored_insert_ne _ _ _ _ _ _ _ s).
  - simpl. by rewrite <- app_assoc.
Qed.

(** X19. Whatever its arguments and its outcome, [LinkFromPool] leaves
    every object under a key other than the destination as it was, and
    sends at most two requests: nothing, or the probe of the
    destination, or the probe followed by one upload to it. *)
Theorem LinkFromPool_touches_one_key
    (storage : PublishedStorage) (publishedDirectory : string) (sourcePool : PackagePool)
    (sourcePath sourceMD5 : string) (force : bool) (s : swift.Remote) :
  let poolPath :=
    filepath.Join storage.(prefix)
      (filepath.Join publishedDirectory (filepath.Base sourcePath)) in
  let linked :=
    LinkFromPool md5 fs storage publishedDirectory sourcePool
                 sourcePath sourceMD5 force s in
  (forall c n, (c, n) <> (storage.(container), poolPath) ->
               swift.stored c n linked.2 = swift.stored c n s)
  /\ (swift.log linked.2 = swift.log s
      \/ swift.log linked.2
         = (swift.log s ++ [swift.HEAD storage.(container) poolPath])%list
      \/ swift.log linked.2
         = (swift.log s ++ [swift.HEAD storage.(container) poolPath;
                            swift.PUT storage.(container) poolPath])%list).
Proof.
  intros poolPath linked. unfold linked, LinkFromPool.
  destruct sourcePool as [rootPath|]; [|split; [done|by left]].
  unfold swift.bind, swift.ret. fold poolPath. rewrite Object__eq.
  set (relPath := filepath.Join publishedDirectory (filepath.Base sourcePath)).
  set (s0 := swift.sent (swift.HEAD storage.(container) poolPath) s).
  assert (Hupload :
    let put := PutFile md5 fs storage relPath sourcePath s0 in
    (forall c n, (c, n) <> (storage.(container), poolPath) ->
                 swift.stored c n put.2 = swift.stored c n s)
    /\ (swift.log put.2 = swift.log s
        \/ swift.log put.2 = (swift.log s ++ [swift.HEAD storage.(container) poolPath])%list
        \/ swift.log put.2
           = (swift.log s ++ [swift.HEAD storage.(container) poolPath;
                              swift.PUT storage.(container) poolPath])%list)).
  { split.
    - intros c n Hne. by rewrite PutFile_frame.
    - right. destruct (PutFile_log storage relPath sourcePath s0) as [-> | ->].
      + by left.
      + right. simpl. by rewrite <- app_assoc. }
  assert (Hprobe :
    (forall c n, (c, n) <> (storage.(container), poolPath) ->
                 swift.stored c n s0 = swift.stored c n s)
    /\ (swift.log s0 = swift.log s
        \/ swift.log s0 = (swift.log s ++ [swift.HEAD storage.(container) poolPath])%list
        \/ swift.log s0
           = (swift.log s ++ [swift.HEAD storage.(container) poolPath;
                              swift.PUT storage.(container) poolPath])%list)).
  { split; [done|]. right. by left. }
  simpl in Hupload.
  destruct (swift.next_fault s) as [e|].
  - destruct (bool_decide (e = swift.ObjectNotFound)); simpl; [|exact Hprobe].
    by destruct (PutFile md5 fs storage relPath sourcePath s0).
  - destruct (swift.stored storage.(container) poolPath s) as [o|]; simpl.
    + destruct (String.eqb _ sourceMD5); simpl; [exact Hprobe|].
      destruct force; simpl; [|exact Hprobe].
      by destruct (PutFile md5 fs storage relPath sourcePath s0).
    + by destruct (PutFile md5 fs storage relPath sourcePath s0).
Qed.

(** X20. When the destination holds nothing and the source file cannot
    be opened, [LinkFromPool] returns the error of [os.Open] as it is;
    the probe is the only request it has sent and no object has
    changed. *)
Theorem LinkFromPool_missing_source
    (storage : PublishedStorage) (publishedDirectory rootPath sourcePath sourceMD5 : string)
    (force : bool) (s : swift.Remote) :
  let poolPath :=
    filepath.Join storage.(prefix)
      (filepath.Join publishedDirectory (filepath.Base sourcePath)) in
  swift.stored storage.(container) poolPath s = None ->
  fs !! sourcePath = None ->
  swift.clear 1 s ->
  LinkFromPool md5 fs storage publishedDirectory (files_PackagePool rootPath)
               sourcePath sourceMD5 force s
  = (Return (Some (PathError "open" sourcePath "no such file or directory")),
     swift.sent (swift.HEAD storage.(container) poolPath) s).
Proof.
  intros poolPath Habsent Hfile Hclear.
  unfold LinkFromPool, swift.bind, swift.ret. fold poolPath.
  rewrite Object__eq, (clear_next_fault _ _ Hclear), Habsent. simpl.
  rewrite PutFile_eq. simpl. by rewrite Hfile.
Qed.

(** X21. The hash that the store reports is compared with the double
    quotes taken out of it: a destination whose hash is the checksum
    between double quotes counts as already published, so that
    [LinkFromPool] returns [nil] after the probe alone, for either
    value of [force], and changes no object. *)
Theorem LinkFromPool_quoted_hash
    (storage : PublishedStorage) (publishedDirectory rootPath sourcePath sourceMD5 : string)
    (force : bool) (s : swift.Remote) (o : swift.Stored) :
  let poolPath :=
    filepath.Join storage.(prefix)
      (filepath.Join publishedDirectory (filepath.Base sourcePath)) in
  swift.stored storage.(container) poolPath s = Some o ->
  swift.etag o = String strings.dquote (sourceMD5 ++ String strings.dquote "") ->
  strings.Remove strings.dquote sourceMD5 = sourceMD5 ->
  swift.clear 1 s ->
  LinkFromPool md5 fs storage publishedDirectory (files_PackagePool rootPath)
               sourcePath sourceMD5 force s
  = (Return None, swift.sent (swift.HEAD storage.(container) poolPath) s).
Proof.
  intros poolPath Hobj Hquoted Hplain Hclear.
  unfold LinkFromPool, swift.bind, swift.ret. fold poolPath.
  rewrite Object__eq, (clear_next_fault _ _ Hclear), Hobj. simpl.
  rewrite Hquoted.
  change (strings.Remove strings.dquote
            (String strings.dquote (sourceMD5 ++ String strings.dquote "")))
    with (strings.Remove strings.dquote (sourceMD5 ++ String strings.dquote "")).
  rewrite Remove_app, Hplain.
  change (strings.Remove strings.dquote (String strings.dquote "")) with "".
  by rewrite append_empty, String.eqb_refl.
Qed.

End linking_further.

(** ** The errors returned *)



(** * The further properties on the sample account *)

Lemma PutFile_missing_source_witness :
  PutFile sample.md5 sample.fs sample.rooted "pool/gone_1.0_amd64.deb" sample.missing
          (sample.remote sample.one [])
  = (Some (PathError "open" sample.missing "no such file or directory"),
     sample.remote sample.one []).
Proof.
  apply (PutFile_missing_source sample.md5 sample.fs sample.rooted
           "pool/gone_1.0_amd64.deb" sample.missing (sample.remote sample.one [])).
  vm_compute. reflexivity.
Defined.

Lemma PutFile_overwrites_witness :
  let s := sample.remote sample.one [] in
  let key := "pool/main/h/hello/hello_1.0_amd64.deb" in
  exists s',
    PutFile sample.md5 sample.fs sample.flat key sample.rebuilt s = (None, s')
    /\ swift.stored "repo" key s' = Some (sample.object "hello 1.0 rebuilt")
    /\ swift.log s' = [swift.PUT "repo" key].
Proof.
  intros s key.
  destruct (PutFile_overwrites sample.md5 sample.fs sample.flat key sample.rebuilt
              "hello 1.0 rebuilt" s) as (s' & Hput & Hobj & _ & Hlog).
  - vm_compute. reflexivity.
  - vm_compute. eauto.
  - apply Forall_nil_2.
  - exists s'. split; [exact Hput|]. split; [exact Hobj|exact Hlog].
Defined.

Lemma PutFile_twice_witness :
  let s := sample.remote [] [] in
  let first := PutFile sample.md5 sample.fs sample.rooted "pool/x.deb" sample.hello s in
  first.1 = None
  /\ swift.containers
       (PutFile sample.md5 sample.fs sample.rooted "pool/x.deb" sample.hello first.2).2
     = swift.containers first.2.
Proof.
  intros s first. split; [vm_compute; reflexivity|].
  apply (PutFile_twice sample.md5 sample.fs sample.rooted "pool/x.deb" sample.hello s).
  vm_compute. reflexivity.
Defined.

Lemma PutFile_then_Remove_witness :
  let s := sample.remote sample.one [] in
  let put := PutFile sample.md5 sample.fs sample.flat "pool/x.deb" sample.hello s in
  let removed := Remove sample.flat "pool/x.deb" put.2 in
  put.1 = None /\ removed.1 = None
  /\ swift.containers removed.2 = swift.containers s.
Proof.
  intros s put removed.
  split; [vm_compute; reflexivity|]. split; [vm_compute; reflexivity|].
  apply (PutFile_then_Remove sample.md5 sample.fs sample.flat "pool/x.deb" sample.hello
           s put.2 removed.2).
  - vm_compute. reflexivity.
  - vm_compute. reflexivity.
  - vm_compute. reflexivity.
Defined.

Lemma Filelist_names_each_object_once_witness :
  let filelist := ["backup/notes.txt"; "public/dists/stable/Release";
                   "public/pool/main/h/hello/hello_1.0_amd64.deb"] in
  NoDup filelist
  /\ forall n, n ∈ filelist <-> is_Some (swift.stored "repo" n sample.shared).
Proof.
  intros filelist.
  apply (Filelist_names_each_object_once sample.rooted "pool" sample.shared
           (Filelist sample.rooted "pool" sample.shared).2 filelist).
  vm_compute. reflexivity.
Defined.

Lemma RemoveDirs_listing_failure_witness :
  let s := sample.remote sample.two [Some swift.AuthorizationFailed] in
  let e := Errorf "error listing under prefix pool/ in Swift: https://auth.example.org/v1.0 aptly repo : Authorization Failed" in
  RemoveDirs sample.flat "pool" no_Progress s = (Some e, (Filelist sample.flat "pool" s).2)
  /\ swift.containers (Filelist sample.flat "pool" s).2 = swift.containers s
  /\ swift.log (Filelist sample.flat "pool" s).2 = (swift.log s ++ [swift.LIST "repo"])%list.
Proof.
  intros s e.
  apply (RemoveDirs_listing_failure sample.flat "pool" no_Progress s
           (Filelist sample.flat "pool" s).2 e).
  vm_compute. reflexivity.
Defined.

Lemma RemoveDirs_success_witness :
  let s := sample.remote sample.two [] in
  let removed := RemoveDirs sample.flat "pool" no_Progress s in
  exists filelist,
    (Filelist sample.flat "pool" s).1 = inr filelist
    /\ swift.log removed.2
       = (swift.log s
          ++ swift.LIST "repo"
             :: ((fun f => swift.DELETE "repo" (filepath.Join "" f)) <$> filelist))%list
    /\ forall f, f ∈ filelist ->
                 swift.stored "repo" (filepath.Join "" f) removed.2 = None.
Proof.
  intros s removed.
  apply (RemoveDirs_success sample.flat "pool" no_Progress s removed.2).
  vm_compute. reflexivity.
Defined.

Lemma RemoveDirs_empties_container_witness :
  let s := sample.remote sample.two [] in
  exists s',
    RemoveDirs sample.flat "dists" no_Progress s = (None, s')
    /\ swift.containers s' = <["repo" := ∅]> (swift.containers s).
Proof.
  intros s.
  apply (RemoveDirs_empties_container sample.flat "dists" no_Progress s
           (list_to_map sample.two)).
  - reflexivity.
  - apply lookup_singleton_eq.
  - intros n [o Hn]. unfold sample.two in Hn. simpl in Hn.
    destruct (decide (n = "pool/a.deb")) as [->|Ha]; [vm_compute; reflexivity|].
    destruct (decide (n = "pool/b.deb")) as [->|Hb]; [vm_compute; reflexivity|].
    rewrite !lookup_insert_ne, lookup_empty in Hn by done. discriminate Hn.
  - apply Forall_nil_2.
Defined.

Lemma RemoveDirs_joins_prefix_again_witness :
  exists s',
    RemoveDirs sample.rooted "pool" no_Progress sample.shared
    = (Some (Errorf ("error deleting " ++ "backup/notes.txt" ++ " from "
                     ++ PublishedStorage_String sample.rooted ++ ": Object Not Found")), s')
    /\ swift.containers s' = swift.containers sample.shared
    /\ swift.log s'
       = (swift.log sample.shared
          ++ [swift.LIST "repo";
              swift.DELETE "repo" (filepath.Join "public" "backup/notes.txt")])%list.
Proof.
  apply (RemoveDirs_joins_prefix_again sample.rooted "pool" no_Progress sample.shared
           "backup/notes.txt"
           ["public/dists/stable/Release"; "public/pool/main/h/hello/hello_1.0_amd64.deb"]).
  - vm_compute. reflexivity.
  - vm_compute. reflexivity.
  - apply Forall_nil_2.
Defined.

Lemma RenameFile_missing_source_witness :
  let s := sample.remote sample.one [] in
  exists s',
    RenameFile sample.flat "pool/a.deb" "pool/b.deb" s
    = (Some (SwiftError swift.ObjectNotFound), s')
    /\ swift.containers s' = swift.containers s
    /\ swift.log s'
       = (swift.log s
          ++ [swift.COPY "repo" (filepath.Join "" "pool/a.deb")
                         "repo" (filepath.Join "" "pool/b.deb")])%list.
Proof.
  intros s.
  apply (RenameFile_missing_source sample.flat "pool/a.deb" "pool/b.deb" s).
  - vm_compute. reflexivity.
  - apply Forall_nil_2.
Defined.

Lemma RenameFile_error_after_copy_witness :
  let s := sample.remote sample.two [None; Some swift.TimeoutError] in
  exists s',
    RenameFile sample.flat "pool/a.deb" "pool/z.deb" s
    = (Some (SwiftError swift.TimeoutError), s')
    /\ swift.stored "repo" (filepath.Join "" "pool/z.deb") s'
       = Some (sample.object "hello 1.0")
    /\ swift.log s'
       = (swift.log s
          ++ [swift.COPY "repo" (filepath.Join "" "pool/a.deb")
                         "repo" (filepath.Join "" "pool/z.deb");
              swift.DELETE "repo" (filepath.Join "" "pool/a.deb")])%list.
Proof.
  intros s.
  apply (RenameFile_error_after_copy sample.flat "pool/a.deb" "pool/z.deb" s
           (sample.object "hello 1.0") swift.TimeoutError []).
  - vm_compute. discriminate.
  - vm_compute. reflexivity.
  - reflexivity.
Defined.

Lemma RenameFile_there_and_back_witness :
  let s := sample.remote sample.two [] in
  let there := RenameFile sample.flat "pool/a.deb" "pool/z.deb" s in
  let back := RenameFile sample.flat "pool/z.deb" "pool/a.deb" there.2 in
  there.1 = None /\ back.1 = None
  /\ swift.containers back.2 = swift.containers s.
Proof.
  intros s there back.
  split; [vm_compute; reflexivity|]. split; [vm_compute; reflexivity|].
  apply (RenameFile_there_and_back sample.flat "pool/a.deb" "pool/z.deb" s there.2 back.2).
  - vm_compute. discriminate.
  - vm_compute. reflexivity.
  - vm_compute. reflexivity.
  - vm_compute. reflexivity.
Defined.

Lemma LinkFromPool_first_publish_witness :
  let s := sample.remote [] [] in
  let poolPath := "public/pool/main/h/hello/hello_1.0_amd64.deb" in
  exists s',
    LinkFromPool sample.md5 sample.fs sample.rooted "pool/main/h/hello" sample.pool
                 sample.hello sample.rebuilt_sum false s = (Return None, s')
    /\ swift.stored "repo" poolPath s' = Some (sample.object "hello 1.0")
    /\ swift.log s' = [swift.HEAD "repo" poolPath; swift.PUT "repo" poolPath].
Proof.
  intros s poolPath.
  destruct (LinkFromPool_first_publish sample.md5 sample.fs sample.rooted
              "pool/main/h/hello" "/var/aptly/pool" sample.hello sample.rebuilt_sum
              "hello 1.0" false s) as (s' & Hlink & Hobj & _ & Hlog).
  - vm_compute. reflexivity.
  - vm_compute. reflexivity.
  - vm_compute. eauto.
  - apply Forall_nil_2.
  - exists s'. split; [exact Hlink|]. split; [exact Hobj|exact Hlog].
Defined.

Lemma LinkFromPool_missing_source_witness :
  let s := sample.remote sample.one [] in
  LinkFromPool sample.md5 sample.fs sample.flat "pool/main/g/gone" sample.pool
               sample.missing sample.hello_sum true s
  = (Return (Some (PathError "open" sample.missing "no such file or directory")),
     swift.sent (swift.HEAD "repo" "pool/main/g/gone/gone_1.0_amd64.deb") s).
Proof.
  intros s.
  apply (LinkFromPool_missing_source sample.md5 sample.fs sample.flat "pool/main/g/gone"
           "/var/aptly/pool" sample.missing sample.hello_sum true s).
  - vm_compute. reflexivity.
  - vm_compute. reflexivity.
  - apply Forall_nil_2.
Defined.

Lemma LinkFromPool_quoted_hash_witness :
  let s := sample.remote [("pool/main/h/hello/hello_1.0_amd64.deb", sample.quoted)] [] in
  LinkFromPool sample.md5 sample.fs sample.flat "pool/main/h/hello" sample.pool
               sample.hello sample.hello_sum false s
  = (Return None,
     swift.sent (swift.HEAD "repo" "pool/main/h/hello/hello_1.0_amd64.deb") s).
Proof.
  intros s.
  apply (LinkFromPool_quoted_hash sample.md5 sample.fs sample.flat "pool/main/h/hello"
           "/var/aptly/pool" sample.hello sample.hello_sum false s sample.quoted).
  - vm_compute. reflexivity.
  - reflexivity.
  - vm_compute. reflexivity.
  - apply Forall_nil_2.
Defined.

